(** * scripts/split_tasks.py: splitting a task document into a pending
      file and an archive file.

    Shallow embedding of the script and proofs of its properties.

    Python strings are sequences of Unicode code points: a character is a
    code point ([N]), a string a list of characters, a document a list of
    lines. *)

From Equations Require Import Equations.
From Stdlib Require Import String Ascii.
From Stdlib Require Import List Arith Bool Lia NArith.
Import ListNotations.

(** ** Strings *)

Abbreviation char := N (only parsing).
Definition str := list char.
Definition line := str.

(** A literal of the source whose characters are all ASCII. *)
Definition lit (s : string) : str :=
  map N_of_ascii (list_ascii_of_string s).

(** [str.isspace] on one character: the code points Python treats as
    whitespace, which are the ones [str.strip] and [str.lstrip] remove. *)
Definition isspace (c : char) : bool :=
  ((9 <=? c) && (c <=? 13) || (28 <=? c) && (c <=? 32)
   || (c =? 133) || (c =? 160) || (c =? 5760)
   || (8192 <=? c) && (c <=? 8202)
   || (c =? 8232) || (c =? 8233) || (c =? 8239) || (c =? 8287)
   || (c =? 12288))%N.

Fixpoint dropWhile {A : Type} (p : A -> bool) (l : list A) : list A :=
  match l with
  | [] => []
  | x :: l' => if p x then dropWhile p l' else l
  end.

(** [s.lstrip()], [s.rstrip()], [s.strip()] *)
Definition lstrip (s : str) : str := dropWhile isspace s.
Definition rstrip (s : str) : str := rev (dropWhile isspace (rev s)).
Definition strip (s : str) : str := rstrip (lstrip s).

(** [s.startswith(prefix)] *)
Fixpoint startswith (s prefix : str) : bool :=
  match prefix, s with
  | [], _ => true
  | _ :: _, [] => false
  | p :: prefix', c :: s' => (c =? p)%N && startswith s' prefix'
  end.

(** [s == ""] *)
Definition is_empty_str (s : str) : bool :=
  match s with [] => true | _ :: _ => false end.

Fixpoint takeWhile {A : Type} (p : A -> bool) (l : list A) : list A :=
  match l with
  | [] => []
  | x :: l' => if p x then x :: takeWhile p l' else []
  end.

(** [s] begins with [marker]. *)
Definition begins_with (s marker : str) : Prop :=
  exists rest, s = marker ++ rest.

Definition no_leading_space (s : str) : Prop :=
  match s with
  | [] => True
  | c :: _ => isspace c = false
  end.

Definition no_trailing_space (s : str) : Prop := no_leading_space (rev s).

(** ** Line classifier *)

(** [is_task_line(line)] returns the pair [(is_task, is_completed)]. *)
Definition is_task_line (line : line) : bool * bool :=
  let stripped := strip line in
  if startswith stripped (lit "- [x]") then (true, true)
  else if startswith stripped (lit "- [ ]") then (true, false)
  else (false, false).

(** [get_indent(line)] *)
Definition get_indent (line : line) : nat :=
  length line - length (lstrip line).

(** The test [next_line.strip() == ""] of the block collector and of
    [clean_empty_lines]. *)
Definition is_blank (line : line) : bool := is_empty_str (strip line).

(** ** Block collector and section partitioner *)

(** [lines[i]], for an index in range. *)
Definition get (lines : list line) (i : nat) : line := nth i lines [].

(** The inner loop of [process_section]: from cursor [j], a blank line or
    a line indented deeper than the task line is appended to [task_block];
    the loop breaks at the first other line or at the end of [lines].
    Returns the block and the cursor. *)
Equations? collect_block (lines : list line) (task_indent : nat)
    (task_block : list line) (j : nat) : list line * nat
    by wf (length lines - j) lt :=
  collect_block lines task_indent task_block j with lt_dec j (length lines) => {
    | left _ =>
        if is_blank (get lines j)
        then collect_block lines task_indent (task_block ++ [get lines j]) (j + 1)
        else if task_indent <? get_indent (get lines j)
        then collect_block lines task_indent (task_block ++ [get lines j]) (j + 1)
        else (task_block, j)
    | right _ => (task_block, j) }.
Proof. all: lia. Qed.

Lemma collect_block_cursor (lines : list line) (task_indent : nat)
    (task_block : list line) (j : nat) :
  j <= snd (collect_block lines task_indent task_block j).
Proof.
  funelim (collect_block lines task_indent task_block j); simpl.
  - destruct (is_blank (get lines j)); [lia|].
    destruct (task_indent <? get_indent (get lines j)); simpl; lia.
  - lia.
Qed.

(** The local variables of [process_section]. *)
Record section_state := mk_section_state {
  pending_lines : list line;
  archived_lines : list line;
  has_pending : bool;
  has_completed : bool
}.

(** The outer loop of [process_section], from cursor [i]. *)
Equations? process_loop (lines : list line) (i : nat) (st : section_state) :
    section_state by wf (length lines - i) lt :=
  process_loop lines i st with lt_dec i (length lines) => {
    | left _ =>
        if fst (is_task_line (get lines i)) then
          process_loop lines
            (snd (collect_block lines (get_indent (get lines i)) [get lines i] (i + 1)))
            (if snd (is_task_line (get lines i))
             then mk_section_state
                    (pending_lines st)
                    (archived_lines st ++
                     fst (collect_block lines (get_indent (get lines i)) [get lines i] (i + 1)))
                    (has_pending st) true
             else mk_section_state
                    (pending_lines st ++
                     fst (collect_block lines (get_indent (get lines i)) [get lines i] (i + 1)))
                    (archived_lines st)
                    true (has_completed st))
        else
          process_loop lines (i + 1)
            (mk_section_state (pending_lines st ++ [get lines i])
                              (archived_lines st ++ [get lines i])
                              (has_pending st) (has_completed st))
    | right _ => st }.
Proof.
  - pose proof (collect_block_cursor lines (get_indent (get lines i)) [get lines i] (i + 1)).
    lia.
  - lia.
Qed.

(** [process_section(header, lines)] returns
    [(pending_lines, archived_lines, has_pending)]. *)
Definition process_section (header : line) (lines : list line) :
    list line * list line * bool :=
  let st := process_loop lines 0 (mk_section_state [] [] false false) in
  (pending_lines st, archived_lines st, has_pending st).

(** The block of a task line goes to one list. *)
Definition route_block (st : section_state) (is_completed : bool)
    (task_block : list line) : section_state :=
  if is_completed
  then mk_section_state (pending_lines st) (archived_lines st ++ task_block)
         (has_pending st) true
  else mk_section_state (pending_lines st ++ task_block) (archived_lines st)
         true (has_completed st).

(** ** Document assembler *)

(** [content.split("\n")] *)
Definition newline : char := 10%N.

Fixpoint split_lines (content : str) : list line :=
  match content with
  | [] => [[]]
  | c :: content' =>
      if (c =? newline)%N then [] :: split_lines content'
      else match split_lines content' with
           | l :: ls => (c :: l) :: ls
           | [] => [[c]]
           end
  end.

(** ["\n".join(lines)] *)
Fixpoint join_lines (lines : list line) : str :=
  match lines with
  | [] => []
  | [l] => l
  | l :: ls => l ++ newline :: join_lines ls
  end.

(** The fixed head of the archive file.  Title: "# 完了済みタスクアーカイブ". *)
Definition archived_title : line :=
  [35; 32; 23436; 20102; 28168; 12415; 12479; 12473; 12463; 12450; 12540;
   12459; 12452; 12502]%N.

(** "> このファイルは `docs/900_tasks.md` から移動した完了済みタスクの履歴です。" *)
Definition archived_note : line :=
  [62; 32; 12371; 12398; 12501; 12449; 12452; 12523; 12399; 32; 96; 100;
   111; 99; 115; 47; 57; 48; 48; 95; 116; 97; 115; 107; 115; 46; 109; 100;
   96; 32; 12363; 12425; 31227; 21205; 12375; 12383; 23436; 20102; 28168;
   12415; 12479; 12473; 12463; 12398; 23653; 27508; 12391; 12377;
   12290]%N.

Definition archived_preamble : list line :=
  [archived_title; []; archived_note; []].

(** The fixed head of the pending file.  Title: "# タスク分解・進捗管理". *)
Definition pending_title : line :=
  [35; 32; 12479; 12473; 12463; 20998; 35299; 12539; 36914; 25431; 31649;
   29702]%N.

(** "> 完了済みタスクは `docs/901_tasks_archived.md` を参照" *)
Definition pending_note : line :=
  [62; 32; 23436; 20102; 28168; 12415; 12479; 12473; 12463; 12399; 32; 96;
   100; 111; 99; 115; 47; 57; 48; 49; 95; 116; 97; 115; 107; 115; 95; 97;
   114; 99; 104; 105; 118; 101; 100; 46; 109; 100; 96; 32; 12434; 21442;
   29031]%N.

Definition pending_preamble : list line :=
  [pending_title; []; pending_note; []].

(** The local variables of [main] during its loop over the lines. *)
Record main_state := mk_main_state {
  current_header : line;
  current_lines : list line;
  pending_output : list line;
  archived_output : list line;
  sections_pending : nat;
  sections_archived : nat
}.

Definition main_init : main_state :=
  mk_main_state [] [] pending_preamble archived_preamble 0 0.

(** The block guarded by [if current_header:], which [main] runs at every
    section header and once more after the loop: the section read so far
    goes through [process_section] and is appended to one buffer. *)
Definition flush_section (st : main_state) : main_state :=
  if is_empty_str (current_header st) then st
  else
    let '(pending, archived, has_pending) :=
      process_section (current_header st) (current_lines st) in
    if has_pending then
      mk_main_state (current_header st) (current_lines st)
        (pending_output st ++ current_header st :: pending)
        (archived_output st)
        (sections_pending st + 1) (sections_archived st)
    else
      mk_main_state (current_header st) (current_lines st)
        (pending_output st)
        (archived_output st ++ current_header st :: archived)
        (sections_pending st) (sections_archived st + 1).

(** One iteration of [for line in lines]. *)
Definition main_step (st : main_state) (line : line) : main_state :=
  if startswith line (lit "## ") then
    let st' := flush_section st in
    mk_main_state line [] (pending_output st') (archived_output st')
      (sections_pending st') (sections_archived st')
  else if startswith line (lit "# ") then st
  else
    mk_main_state (current_header st) (current_lines st ++ [line])
      (pending_output st) (archived_output st)
      (sections_pending st) (sections_archived st).

(** [clean_empty_lines]: its loop, with the locals [result] and
    [prev_empty]. *)
Fixpoint clean_loop (lines : list line) (result : list line)
    (prev_empty : bool) : list line :=
  match lines with
  | [] => result
  | line :: lines' =>
      let is_empty := is_blank line in
      if is_empty && prev_empty then clean_loop lines' result prev_empty
      else clean_loop lines' (result ++ [line]) is_empty
  end.

Definition clean_empty_lines (lines : list line) : list line :=
  clean_loop lines [] false.

(** What a run produces: the two texts written to the files, and the
    numbers it prints (sections and lines of each file). *)
Record run := mk_run {
  pending_text : str;
  archived_text : str;
  pending_report : nat * nat;
  archived_report : nat * nat
}.

(** The two buffers when the loop and the last flush are done. *)
Definition assemble (content : str) : main_state :=
  flush_section (fold_left main_step (split_lines content) main_init).

(** The two line lists that are joined and written. *)
Definition pending_final (content : str) : list line :=
  clean_empty_lines (pending_output (assemble content)).
Definition archived_final (content : str) : list line :=
  clean_empty_lines (archived_output (assemble content)).

(** [main], as a function of the text read from the task file. *)
Definition main (content : str) : run :=
  let st := assemble content in
  mk_run (join_lines (pending_final content))
         (join_lines (archived_final content))
         (sections_pending st, length (pending_final content))
         (sections_archived st, length (archived_final content)).

(** ** The classification of the lines of a section

    What the cursor of [process_section] does, told line by line: a line
    is the marker line of a task block, a detail line of the block that is
    open, or an ordinary line outside every block.  The open block is
    remembered as the indentation of its marker line and its completion
    flag. *)

Inductive role :=
| Ordinary
| Head (completed : bool)
| Detail (completed : bool).

Definition open_block := option (nat * bool).

(** The test of the inner loop: the line stays in the block. *)
Definition is_detail (task_indent : nat) (l : line) : bool :=
  is_blank l || (task_indent <? get_indent l).

(** A line met by the outer loop. *)
Definition top_role (l : line) : role * open_block :=
  if fst (is_task_line l)
  then (Head (snd (is_task_line l)), Some (get_indent l, snd (is_task_line l)))
  else (Ordinary, None).

Definition classify (cur : open_block) (l : line) : role * open_block :=
  match cur with
  | Some (t, c) => if is_detail t l then (Detail c, cur) else top_role l
  | None => top_role l
  end.

Fixpoint tagged (cur : open_block) (ls : list line) : list (line * role) :=
  match ls with
  | [] => []
  | l :: ls' => (l, fst (classify cur l)) :: tagged (snd (classify cur l)) ls'
  end.

(** The lines that [process_section] puts in [pending_lines], and in
    [archived_lines]. *)
Definition in_pending (x : line * role) : bool :=
  match snd x with
  | Ordinary => true
  | Head c | Detail c => negb c
  end.

Definition in_archived (x : line * role) : bool :=
  match snd x with
  | Ordinary => true
  | Head c | Detail c => c
  end.

Definition is_head (completed : bool) (x : line * role) : bool :=
  match snd x with
  | Head c => Bool.eqb c completed
  | _ => false
  end.

Definition keep (f : line * role -> bool) (tl : list (line * role)) : list line :=
  map fst (filter f tl).

(** The number of lines the inner loop takes from the front of [ls]. *)
Fixpoint run_length (task_indent : nat) (ls : list line) : nat :=
  match ls with
  | [] => 0
  | l :: ls' => if is_detail task_indent l then S (run_length task_indent ls') else 0
  end.

(** The locals of [process_section] after the lines [tl] (with their
    roles) have been consumed. *)
Definition absorb (st : section_state) (tl : list (line * role)) : section_state :=
  mk_section_state
    (pending_lines st ++ keep in_pending tl)
    (archived_lines st ++ keep in_archived tl)
    (has_pending st || existsb (is_head false) tl)
    (has_completed st || existsb (is_head true) tl).

(** No open block, or an open block that is completed. *)
Definition not_pending_block (cur : open_block) : Prop :=
  match cur with
  | Some (_, false) => False
  | _ => True
  end.

(** Line [k] of [ls] lies in the run of detail lines after a task line of
    [ls], or in the run of detail lines that goes on from the open block. *)
Definition covered (cur : open_block) (ls : list line) (k : nat) : Prop :=
  (exists i, i < k /\ fst (is_task_line (get ls i)) = true
     /\ forall m, i < m <= k -> is_detail (get_indent (get ls i)) (get ls m) = true)
  \/ (exists t c, cur = Some (t, c)
     /\ forall m, m <= k -> is_detail t (get ls m) = true).

(** The open block after the lines [ls]. *)
Definition state_after (cur : open_block) (ls : list line) : open_block :=
  fold_left (fun c l => snd (classify c l)) ls cur.

(** The open block of a scan of the section ([cur]) against the open
    block of a scan of its pending lines only ([cur']): the same, except
    inside a completed block, whose lines the second scan does not see;
    there the second scan has no open block, or a pending one that is
    indented at least as deep. *)
Definition rescan_ok (cur cur' : open_block) : Prop :=
  match cur with
  | None => cur' = None
  | Some (t, false) => cur' = Some (t, false)
  | Some (t, true) =>
      match cur' with
      | None => True
      | Some (t', c') => c' = false /\ t <= t'
      end
  end.

(** ** The sections of a document

    What the loop of [main] does, told section by section: the lines before
    the first header, and then every header with the lines it owns.  A line
    that starts with "# " belongs to nothing. *)

Definition is_h2 (l : line) : bool := startswith l (lit "## ").
Definition is_h1 (l : line) : bool := startswith l (lit "# ").

Fixpoint sections_of (lines : list line) : list line * list (line * list line) :=
  match lines with
  | [] => ([], [])
  | l :: lines' =>
      let (body, secs) := sections_of lines' in
      if is_h2 l then ([], (l, body) :: secs)
      else if is_h1 l then (body, secs)
      else (l :: body, secs)
  end.

(** The lines a section adds to the pending buffer, and to the archive
    buffer. *)
Definition to_pending (s : line * list line) : list line :=
  let '(pending, archived, has_pending) := process_section (fst s) (snd s) in
  if has_pending then fst s :: pending else [].

Definition to_archived (s : line * list line) : list line :=
  let '(pending, archived, has_pending) := process_section (fst s) (snd s) in
  if has_pending then [] else fst s :: archived.

(** A header starts with "## "; no line of a body does, and none starts
    with "# ". *)
Definition body_line (l : line) : Prop := is_h2 l = false /\ is_h1 l = false.

Definition well_formed_section (s : line * list line) : Prop :=
  is_h2 (fst s) = true /\ Forall body_line (snd s).

(** What the section that is being read adds to each buffer when it is
    flushed after the lines [more] have been added to it. *)
Definition open_to_pending (st : main_state) (more : list line) : list line :=
  if is_empty_str (current_header st) then []
  else to_pending (current_header st, current_lines st ++ more).

Definition open_to_archived (st : main_state) (more : list line) : list line :=
  if is_empty_str (current_header st) then []
  else to_archived (current_header st, current_lines st ++ more).

(** Empty, or beginning with a header. *)
Definition header_led (ls : list line) : Prop :=
  match ls with
  | [] => True
  | h :: _ => is_h2 h = true
  end.

Definition line_eq_dec : forall a b : line, {a = b} + {a <> b} :=
  list_eq_dec N.eq_dec.

(** How often the text [l] occurs in a list of lines. *)
Definition occurrences (l : line) (ls : list line) : nat :=
  count_occ line_eq_dec ls l.

(** ** Blank-line collapse, told without the accumulator *)

(** [clean_empty_lines] without its accumulator. *)
Fixpoint cleaned (prev_empty : bool) (lines : list line) : list line :=
  match lines with
  | [] => []
  | l :: lines' =>
      if is_blank l && prev_empty then cleaned prev_empty lines'
      else l :: cleaned (is_blank l) lines'
  end.

(** No two blank lines in a row. *)
Fixpoint no_blank_run (lines : list line) : Prop :=
  match lines with
  | [] => True
  | l :: lines' =>
      match lines' with
      | [] => True
      | l' :: _ => ~ (is_blank l = true /\ is_blank l' = true)
      end /\ no_blank_run lines'
  end.

Definition no_newline (l : line) : Prop := ~ In newline l.

(** ** Counting task markers *)

Definition is_marker (l : line) : bool := fst (is_task_line l).
Definition is_pending_marker (l : line) : bool :=
  fst (is_task_line l) && negb (snd (is_task_line l)).

Definition count (p : line -> bool) (ls : list line) : nat :=
  length (filter p ls).

(** ** Properties of a whole run, for one document *)



(** Scanned as a section is, the pending text has no completed block;
    the archive text has no pending marker line. *)
Definition outputs_separated (content : str) : Prop :=
  existsb (is_head true)
    (tagged None (split_lines (pending_text (main content)))) = false
  /\ count is_pending_marker (split_lines (archived_text (main content))) = 0.

(** The document of the scenario with a mixed section. *)
Definition mixed_doc : str :=
  join_lines [lit "## A"; lit "- [ ] todo1"; lit "- [x] done1"; lit "  detail1"].

(** The whole section of [mixed_doc], its completed task too, is in the
    pending text and none of it in the archive text. *)
Definition mixed_section_whole_in_pending : Prop :=
  let pending := split_lines (pending_text (main mixed_doc)) in
  let archived := split_lines (archived_text (main mixed_doc)) in
  In (lit "## A") pending /\ In (lit "- [ ] todo1") pending
  /\ ~ In (lit "## A") archived
  /\ In (lit "- [x] done1") pending /\ In (lit "  detail1") pending.


(** A completed task with a pending marker line nested in it. *)
Definition nested_doc : str :=
  join_lines [lit "## A"; lit "- [x] done"; lit "  - [ ] sub"].

(** ** Order and whole runs on line lists *)

(** [a] is [b] with some lines left out, the others in their order. *)
Inductive subseq : list line -> list line -> Prop :=
| subseq_nil : subseq [] []
| subseq_skip (l : line) (a b : list line) : subseq a b -> subseq a (l :: b)
| subseq_keep (l : line) (a b : list line) : subseq a b -> subseq (l :: a) (l :: b).

(** The loop of [main] and its last flush, on the lines of the text. *)
Definition assemble_lines (lines : list line) : main_state :=
  flush_section (fold_left main_step lines main_init).

(** The flag [has_pending] of a section. *)
Definition section_has_pending (s : line * list line) : bool :=
  snd (process_section (fst s) (snd s)).

(** What the section that is being read adds to a counter when it is
    flushed after the lines [more] have been added to it: [b] is [true]
    for [sections_pending], [false] for [sections_archived]. *)
Definition open_count (b : bool) (st : main_state) (more : list line) : nat :=
  if is_empty_str (current_header st) then 0
  else if Bool.eqb (section_has_pending (current_header st, current_lines st ++ more)) b
       then 1 else 0.

(** The blank state of [clean_empty_lines] after the lines [ls]. *)
Definition blank_end (prev_empty : bool) (ls : list line) : bool :=
  fold_left (fun _ l => is_blank l) ls prev_empty.

(** A section as it stands in the pending text: its header and its
    [pending_lines] with the blank runs collapsed. *)
Definition pending_again (s : line * list line) : line * list line :=
  (fst s, cleaned false (fst (fst (process_section (fst s) (snd s))))).

(** A section as it stands in the archive text when it has no pending
    block: its header and its body with the blank runs collapsed. *)
Definition archived_again (s : line * list line) : line * list line :=
  (fst s, cleaned false (snd s)).

(** The lines of a section, header first. *)
Definition section_lines (s : line * list line) : list line := fst s :: snd s.

(** The document of the scenario with a section whose tasks are all
    completed. *)
Definition completed_doc : str :=
  join_lines [lit "## B"; lit "- [x] done2"; lit "  note"].

(** ** Further properties of a whole run, for one document *)


(** No header text of the document is in both buffers. *)
Definition header_in_one_buffer (content : str) : Prop :=
  forall h, In h (split_lines content) -> is_h2 h = true ->
    ~ (In h (pending_output (assemble content))
       /\ In h (archived_output (assemble content))).

(** Two sections with the same header text, one completed, one pending. *)
Definition same_header_doc : str :=
  join_lines [lit "## Done"; lit "- [x] a"; lit "## Done"; lit "- [ ] b"].



(** ** Strings: lemmas *)

Lemma take_drop_while {A : Type} (p : A -> bool) (l : list A) :
  l = takeWhile p l ++ dropWhile p l.
Proof.
  induction l as [|x l IH]; simpl; [reflexivity|].
  destruct (p x); simpl; congruence.
Qed.

Lemma takeWhile_all {A : Type} (p : A -> bool) (l : list A) :
  forallb p (takeWhile p l) = true.
Proof.
  induction l as [|x l IH]; simpl; [reflexivity|].
  destruct (p x) eqn:E; simpl; [rewrite E; exact IH | reflexivity].
Qed.

Lemma dropWhile_head {A : Type} (p : A -> bool) (l : list A) (x : A) (l' : list A) :
  dropWhile p l = x :: l' -> p x = false.
Proof.
  induction l as [|y l IH]; simpl; [discriminate|].
  destruct (p y) eqn:E; [exact IH|].
  intros H. injection H as -> _. exact E.
Qed.

Lemma dropWhile_length {A : Type} (p : A -> bool) (l : list A) :
  length (dropWhile p l) <= length l.
Proof.
  induction l as [|x l IH]; simpl; [lia|].
  destruct (p x); simpl; lia.
Qed.

Lemma startswith_begins (s prefix : str) :
  startswith s prefix = true <-> begins_with s prefix.
Proof.
  revert s. induction prefix as [|p prefix IH]; intros s; simpl.
  - split; [intros _; exists s; reflexivity | destruct s; reflexivity].
  - destruct s as [|c s].
    + split; [discriminate | intros [rest H]; discriminate].
    + simpl. rewrite andb_true_iff, N.eqb_eq, IH. split.
      * intros [-> [rest ->]]. exists rest. reflexivity.
      * intros [rest H]. simpl in H. injection H as -> ->.
        split; [reflexivity | exists rest; reflexivity].
Qed.

Lemma lstrip_split (s : str) :
  s = takeWhile isspace s ++ lstrip s /\ no_leading_space (lstrip s).
Proof.
  split; [apply take_drop_while|].
  unfold no_leading_space, lstrip.
  destruct (dropWhile isspace s) eqn:E; [exact I|].
  eapply dropWhile_head; exact E.
Qed.

Lemma rstrip_split (s : str) :
  s = rstrip s ++ rev (takeWhile isspace (rev s)) /\ no_trailing_space (rstrip s).
Proof.
  unfold rstrip, no_trailing_space. split.
  - rewrite <- rev_app_distr, <- take_drop_while, rev_involutive. reflexivity.
  - rewrite rev_involutive. unfold no_leading_space.
    destruct (dropWhile isspace (rev s)) eqn:E; [exact I|].
    eapply dropWhile_head; exact E.
Qed.

Lemma rstrip_keeps_head (s : str) :
  no_leading_space s -> no_leading_space (rstrip s).
Proof.
  intros H. destruct (rstrip_split s) as [E _].
  destruct (rstrip s) as [|c r]; [exact I|].
  rewrite E in H. exact H.
Qed.

(** [strip] removes a run of whitespace at each end and nothing else. *)
Lemma strip_split (s : str) :
  exists a b, s = a ++ strip s ++ b
    /\ forallb isspace a = true /\ forallb isspace b = true
    /\ no_leading_space (strip s) /\ no_trailing_space (strip s).
Proof.
  exists (takeWhile isspace s), (rev (takeWhile isspace (rev (lstrip s)))).
  destruct (lstrip_split s) as [E1 H1].
  destruct (rstrip_split (lstrip s)) as [E2 H2].
  unfold strip. repeat split.
  - rewrite <- E2. exact E1.
  - apply takeWhile_all.
  - rewrite forallb_forall. intros x Hx. apply in_rev in Hx.
    pose proof (takeWhile_all isspace (rev (lstrip s))) as Hall.
    rewrite forallb_forall in Hall. apply Hall. exact Hx.
  - apply rstrip_keeps_head. exact H1.
  - exact H2.
Qed.

(** ** Line classifier: theorems *)

(** C8: the classifier answers [is_task] exactly for the lines whose text
    between the leading and the trailing whitespace begins with "- [x]" or
    with "- [ ]", and [is_completed] exactly for those beginning with
    "- [x]"; every other string, the empty one too, gives (false, false). *)
Theorem is_task_line_spec (s : str) :
  exists a t b,
    s = a ++ t ++ b
    /\ forallb isspace a = true /\ forallb isspace b = true
    /\ no_leading_space t /\ no_trailing_space t
    /\ (fst (is_task_line s) = true <->
        begins_with t (lit "- [x]") \/ begins_with t (lit "- [ ]"))
    /\ (snd (is_task_line s) = true <-> begins_with t (lit "- [x]"))
    /\ (~ (begins_with t (lit "- [x]") \/ begins_with t (lit "- [ ]")) ->
        is_task_line s = (false, false)).
Proof.
  destruct (strip_split s) as (a & b & E & Ha & Hb & Hl & Ht).
  exists a, (strip s), b.
  repeat (split; [assumption|]).
  rewrite <- !startswith_begins. unfold is_task_line.
  destruct (startswith (strip s) (lit "- [x]")) eqn:Ex;
    destruct (startswith (strip s) (lit "- [ ]")) eqn:Eo; simpl;
    intuition congruence.
Qed.

(** ** Block collector: lemmas *)

Lemma skipn_get (lines : list line) (j : nat) :
  j < length lines -> skipn j lines = get lines j :: skipn (j + 1) lines.
Proof.
  revert j. induction lines as [|l lines IH]; intros j Hj; simpl in Hj; [lia|].
  destruct j as [|j]; [reflexivity|].
  simpl. apply IH. lia.
Qed.

Lemma get_skipn (lines : list line) (j k : nat) :
  get (skipn j lines) k = get lines (j + k).
Proof.
  unfold get. revert j. induction lines as [|l lines IH]; intros j.
  - rewrite skipn_nil. destruct k, j; reflexivity.
  - destruct j as [|j]; [reflexivity|]. simpl. apply IH.
Qed.

Lemma run_length_le (t : nat) (ls : list line) :
  run_length t ls <= length ls.
Proof.
  induction ls as [|l ls IH]; simpl; [lia|].
  destruct (is_detail t l); simpl; lia.
Qed.

Lemma run_length_inside (t : nat) (ls : list line) (k : nat) :
  k < run_length t ls -> is_detail t (get ls k) = true.
Proof.
  revert k. induction ls as [|l ls IH]; intros k Hk; simpl in Hk; [lia|].
  destruct (is_detail t l) eqn:E; [|lia].
  destruct k as [|k]; [exact E|]. apply IH. lia.
Qed.

Lemma run_length_stop (t : nat) (ls : list line) :
  run_length t ls = length ls \/ is_detail t (get ls (run_length t ls)) = false.
Proof.
  induction ls as [|l ls IH]; simpl; [left; reflexivity|].
  destruct (is_detail t l) eqn:E; [|right; exact E].
  destruct IH as [IH|IH]; [left; congruence | right; exact IH].
Qed.

(** The inner loop takes the longest run of detail lines after the
    cursor. *)
Lemma collect_block_run (lines : list line) (t : nat) (block : list line) (j : nat) :
  collect_block lines t block j =
  (block ++ firstn (run_length t (skipn j lines)) (skipn j lines),
   j + run_length t (skipn j lines)).
Proof.
  funelim (collect_block lines t block j).
  - rewrite (skipn_get lines _ l). simpl run_length. unfold is_detail.
    destruct (is_blank (get lines j)); simpl orb.
    + rewrite H, <- app_assoc. simpl. f_equal. lia.
    + destruct (task_indent <? get_indent (get lines j)).
      * rewrite H, <- app_assoc. simpl. f_equal. lia.
      * simpl. rewrite app_nil_r. f_equal. lia.
  - rewrite skipn_all2 by lia. simpl. rewrite app_nil_r. f_equal. lia.
Qed.

(** ** Section partitioner: lemmas *)

Lemma map_fst_tagged (cur : open_block) (ls : list line) :
  map fst (tagged cur ls) = ls.
Proof.
  revert cur. induction ls as [|l ls IH]; intros cur; simpl; [reflexivity|].
  rewrite IH. reflexivity.
Qed.

(** Inside an open block the detail lines come first; the line that ends
    the block is met as the outer loop meets it. *)
Lemma tagged_open (t : nat) (c : bool) (ls : list line) :
  tagged (Some (t, c)) ls =
  map (fun l => (l, Detail c)) (firstn (run_length t ls) ls)
  ++ tagged None (skipn (run_length t ls) ls).
Proof.
  induction ls as [|l ls IH]; [reflexivity|].
  simpl. destruct (is_detail t l); simpl; [rewrite IH|]; reflexivity.
Qed.

Lemma keep_app (f : line * role -> bool) (a b : list (line * role)) :
  keep f (a ++ b) = keep f a ++ keep f b.
Proof. unfold keep. rewrite filter_app, map_app. reflexivity. Qed.

Lemma keep_cons (f : line * role -> bool) (x : line * role) (tl : list (line * role)) :
  keep f (x :: tl) = if f x then fst x :: keep f tl else keep f tl.
Proof. unfold keep. simpl. destruct (f x); reflexivity. Qed.

Lemma keep_pending_details (c : bool) (ls : list line) :
  keep in_pending (map (fun l => (l, Detail c)) ls) = if c then [] else ls.
Proof.
  unfold keep. induction ls as [|l ls IH]; simpl.
  - destruct c; reflexivity.
  - unfold in_pending at 1. simpl. destruct c; simpl; [|f_equal]; exact IH.
Qed.

Lemma keep_archived_details (c : bool) (ls : list line) :
  keep in_archived (map (fun l => (l, Detail c)) ls) = if c then ls else [].
Proof.
  unfold keep. induction ls as [|l ls IH]; simpl.
  - destruct c; reflexivity.
  - unfold in_archived at 1. simpl. destruct c; simpl; [f_equal|]; exact IH.
Qed.

Lemma no_head_in_details (b c : bool) (ls : list line) :
  existsb (is_head b) (map (fun l => (l, Detail c)) ls) = false.
Proof. induction ls as [|l ls IH]; simpl; [reflexivity | exact IH]. Qed.

(** The outer loop from cursor [i] consumes the rest of the lines, each
    according to its role. *)
Lemma process_loop_tagged (lines : list line) (i : nat) (st : section_state) :
  process_loop lines i st = absorb st (tagged None (skipn i lines)).
Proof.
  funelim (process_loop lines i st).
  - rewrite (skipn_get lines _ l). simpl tagged. unfold top_role.
    destruct (fst (is_task_line (get lines i))) eqn:Et.
    + rewrite H. clear H H0 Heqcall.
      rewrite collect_block_run. simpl fst. simpl snd.
      rewrite tagged_open.
      set (n := run_length (get_indent (get lines i)) (skipn (i + 1) lines)).
      replace (skipn (i + 1 + n) lines) with (skipn n (skipn (i + 1) lines))
        by (rewrite skipn_skipn; f_equal; lia).
      unfold absorb.
      destruct (snd (is_task_line (get lines i))); simpl; f_equal;
        rewrite ?keep_cons, ?keep_app, ?existsb_app, ?no_head_in_details,
          ?keep_pending_details, ?keep_archived_details; simpl;
        rewrite <- ?app_assoc; simpl;
        rewrite ?orb_true_r, ?orb_false_r; reflexivity.
    + rewrite H0. clear H H0 Heqcall.
      unfold absorb, keep. simpl. rewrite <- !app_assoc. reflexivity.
  - rewrite skipn_all2 by lia. unfold absorb, keep. simpl.
    rewrite !app_nil_r, !orb_false_r. destruct st; reflexivity.
Qed.

Lemma process_section_tagged (header : line) (lines : list line) :
  process_section header lines =
  (keep in_pending (tagged None lines), keep in_archived (tagged None lines),
   existsb (is_head false) (tagged None lines)).
Proof.
  unfold process_section. rewrite process_loop_tagged. reflexivity.
Qed.

(** One turn of the outer loop at a task line. *)
Lemma process_loop_task (lines : list line) (i : nat) (st : section_state) :
  i < length lines ->
  fst (is_task_line (get lines i)) = true ->
  process_loop lines i st =
  process_loop lines
    (snd (collect_block lines (get_indent (get lines i)) [get lines i] (i + 1)))
    (route_block st (snd (is_task_line (get lines i)))
       (fst (collect_block lines (get_indent (get lines i)) [get lines i] (i + 1)))).
Proof.
  intros Hi Ht. rewrite process_loop_equation_1.
  destruct (lt_dec i (length lines)) as [Hlt|Hge]; [|lia].
  simpl. rewrite Ht. unfold route_block.
  destruct (snd (is_task_line (get lines i))); reflexivity.
Qed.

(** ** Block collector: theorem *)

(** C6: at a task line [lines[i]] the collected block is the run
    [lines[i:j]] made of the task line and of every following line that is
    blank or indented deeper than it; [j] is the end of the list or the
    first line that is neither, and the outer loop goes on from [j] with
    the block put in one list. *)
Theorem collect_block_maximal (lines : list line) (i : nat) :
  i < length lines ->
  fst (is_task_line (get lines i)) = true ->
  let t := get_indent (get lines i) in
  let block := fst (collect_block lines t [get lines i] (i + 1)) in
  let j := snd (collect_block lines t [get lines i] (i + 1)) in
  i < j <= length lines
  /\ block = firstn (j - i) (skipn i lines)
  /\ (forall k, i < k < j ->
        is_blank (get lines k) = true \/ t < get_indent (get lines k))
  /\ (j = length lines \/
      (is_blank (get lines j) = false /\ get_indent (get lines j) <= t))
  /\ (forall st, process_loop lines i st =
        process_loop lines j
          (route_block st (snd (is_task_line (get lines i))) block)).
Proof.
  intros Hi Ht t block j. subst block j.
  rewrite collect_block_run. simpl fst. simpl snd.
  set (rest := skipn (i + 1) lines).
  set (n := run_length t rest).
  assert (Hlen : length rest = length lines - (i + 1))
    by (unfold rest; apply length_skipn).
  pose proof (run_length_le t rest) as Hn. fold n in Hn.
  repeat split.
  - lia.
  - lia.
  - rewrite (skipn_get lines _ Hi). fold rest.
    replace (i + 1 + n - i) with (S n) by lia. reflexivity.
  - intros k Hk.
    pose proof (@run_length_inside t rest (k - (i + 1))) as Hin.
    fold n in Hin. unfold rest in Hin. rewrite get_skipn in Hin.
    replace (i + 1 + (k - (i + 1))) with k in Hin by lia.
    unfold is_detail in Hin.
    destruct (is_blank (get lines k)); [left; reflexivity|].
    right. apply Nat.ltb_lt. apply Hin. lia.
  - destruct (run_length_stop t rest) as [Hs|Hs]; fold n in Hs.
    + left. lia.
    + right. unfold rest in Hs. rewrite get_skipn in Hs.
      unfold is_detail in Hs. apply orb_false_iff in Hs.
      destruct Hs as [Hb Hlt]. apply Nat.ltb_ge in Hlt. split; assumption.
  - intros st. rewrite (@process_loop_task lines i st Hi Ht).
    fold t. rewrite collect_block_run. reflexivity.
Qed.

(** The theorem at a task line with one detail line and a line that ends
    the block. *)
Lemma collect_block_maximal_witness :
  0 < length [lit "- [ ] a"; lit "  d"; lit "b"]
  /\ fst (is_task_line (get [lit "- [ ] a"; lit "  d"; lit "b"] 0)) = true
  /\ 0 < snd (collect_block [lit "- [ ] a"; lit "  d"; lit "b"]
               (get_indent (get [lit "- [ ] a"; lit "  d"; lit "b"] 0))
               [get [lit "- [ ] a"; lit "  d"; lit "b"] 0] (0 + 1))
      <= length [lit "- [ ] a"; lit "  d"; lit "b"].
Proof.
  split; [simpl; lia|]. split; [reflexivity|].
  apply (collect_block_maximal [lit "- [ ] a"; lit "  d"; lit "b"] 0);
    [simpl; lia | reflexivity].
Defined.

(** ** Document assembler: lemmas *)

Lemma flush_section_buffers (st : main_state) :
  pending_output (flush_section st) = pending_output st ++ open_to_pending st []
  /\ archived_output (flush_section st) = archived_output st ++ open_to_archived st [].
Proof.
  unfold flush_section, open_to_pending, open_to_archived, to_pending, to_archived.
  rewrite app_nil_r. simpl fst. simpl snd.
  destruct (is_empty_str (current_header st)).
  - rewrite !app_nil_r. split; reflexivity.
  - destruct (process_section (current_header st) (current_lines st))
      as [[pending archived] has_pending].
    destruct has_pending; simpl; rewrite app_nil_r; split; reflexivity.
Qed.

Lemma is_h2_nonempty (l : line) : is_h2 l = true -> is_empty_str l = false.
Proof. destruct l; [discriminate | reflexivity]. Qed.

(** The loop and the last flush: every section of the document is
    flushed once, in order. *)
Lemma main_loop_sections (lines : list line) (st : main_state) :
  pending_output (flush_section (fold_left main_step lines st)) =
    pending_output st ++ open_to_pending st (fst (sections_of lines))
    ++ flat_map to_pending (snd (sections_of lines))
  /\ archived_output (flush_section (fold_left main_step lines st)) =
    archived_output st ++ open_to_archived st (fst (sections_of lines))
    ++ flat_map to_archived (snd (sections_of lines)).
Proof.
  revert st. induction lines as [|l lines IH]; intros st.
  - simpl. rewrite !app_nil_r. apply flush_section_buffers.
  - simpl fold_left. simpl sections_of.
    destruct (sections_of lines) as [body secs] eqn:E.
    specialize (IH (main_step st l)). simpl fst in IH. simpl snd in IH.
    destruct IH as [IHp IHa]. rewrite IHp, IHa. clear IHp IHa.
    unfold main_step. fold (is_h2 l). fold (is_h1 l).
    destruct (is_h2 l) eqn:H2.
    + destruct (flush_section_buffers st) as [Fp Fa].
      unfold open_to_pending at 1. unfold open_to_archived at 1.
      simpl. rewrite (is_h2_nonempty l H2), Fp, Fa, <- !app_assoc.
      split; reflexivity.
    + destruct (is_h1 l) eqn:H1; simpl.
      * split; reflexivity.
      * unfold open_to_pending, open_to_archived. simpl.
        rewrite <- !app_assoc. split; reflexivity.
Qed.

(** The buffers of a whole run. *)
Lemma assemble_sections (content : str) :
  pending_output (assemble content) =
    pending_preamble ++ flat_map to_pending (snd (sections_of (split_lines content)))
  /\ archived_output (assemble content) =
    archived_preamble ++ flat_map to_archived (snd (sections_of (split_lines content))).
Proof.
  unfold assemble.
  destruct (main_loop_sections (split_lines content) main_init) as [Hp Ha].
  rewrite Hp, Ha. split; reflexivity.
Qed.

Lemma sections_of_headers (lines : list line) :
  map fst (snd (sections_of lines)) = filter is_h2 lines.
Proof.
  induction lines as [|l lines IH]; [reflexivity|].
  simpl. destruct (sections_of lines) as [body secs].
  destruct (is_h2 l); simpl in *; [f_equal; exact IH|].
  destruct (is_h1 l); exact IH.
Qed.

Lemma sections_of_well_formed (lines : list line) :
  Forall body_line (fst (sections_of lines))
  /\ Forall well_formed_section (snd (sections_of lines)).
Proof.
  induction lines as [|l lines IH]; [split; constructor|].
  simpl. destruct (sections_of lines) as [body secs]. simpl in IH.
  destruct IH as [Hb Hs].
  destruct (is_h2 l) eqn:H2; simpl.
  - split; [constructor|]. constructor; [|exact Hs]. split; assumption.
  - destruct (is_h1 l) eqn:H1; simpl; split; try assumption.
    constructor; [split|]; assumption.
Qed.

Lemma keep_incl (f : line * role -> bool) (cur : open_block) (ls : list line) (l : line) :
  In l (keep f (tagged cur ls)) -> In l ls.
Proof.
  unfold keep. intros H. apply in_map_iff in H. destruct H as [x [<- Hx]].
  apply filter_In in Hx. destruct Hx as [Hx _].
  rewrite <- (map_fst_tagged cur ls). apply in_map. exact Hx.
Qed.

Lemma to_pending_tagged (s : line * list line) :
  to_pending s =
  if existsb (is_head false) (tagged None (snd s))
  then fst s :: keep in_pending (tagged None (snd s)) else [].
Proof. unfold to_pending. rewrite process_section_tagged. reflexivity. Qed.

Lemma to_archived_tagged (s : line * list line) :
  to_archived s =
  if existsb (is_head false) (tagged None (snd s))
  then [] else fst s :: keep in_archived (tagged None (snd s)).
Proof. unfold to_archived. rewrite process_section_tagged. reflexivity. Qed.

Lemma occurrences_app (l : line) (a b : list line) :
  occurrences l (a ++ b) = occurrences l a + occurrences l b.
Proof. apply count_occ_app. Qed.

Lemma occurrences_none (l : line) (ls : list line) :
  ~ In l ls -> occurrences l ls = 0.
Proof. apply count_occ_not_In. Qed.

Lemma occurrences_filter (p : line -> bool) (l : line) (ls : list line) :
  p l = true -> occurrences l (filter p ls) = occurrences l ls.
Proof.
  intros Hp. unfold occurrences. induction ls as [|x ls IH]; [reflexivity|].
  simpl. destruct (p x) eqn:Ex; simpl.
  - destruct (line_eq_dec x l); congruence.
  - destruct (line_eq_dec x l) as [->|_]; congruence.
Qed.

(** A header occurs once in what its section adds to the two buffers, and
    another header text does not occur there. *)
Lemma header_in_section (h : line) (s : line * list line) :
  is_h2 h = true -> well_formed_section s ->
  occurrences h (to_pending s) + occurrences h (to_archived s) =
  occurrences h [fst s].
Proof.
  intros Hh [Hs Hbody].
  assert (Hnot : forall f, ~ In h (keep f (tagged None (snd s)))).
  { intros f Hin. apply keep_incl in Hin.
    rewrite Forall_forall in Hbody. destruct (Hbody h Hin). congruence. }
  rewrite to_pending_tagged, to_archived_tagged.
  destruct (existsb (is_head false) (tagged None (snd s)));
    change (occurrences h (fst s :: ?t)) with (occurrences h ([fst s] ++ t));
    rewrite occurrences_app, (@occurrences_none h _ (Hnot _)); simpl; lia.
Qed.

Lemma header_in_sections (h : line) (secs : list (line * list line)) :
  is_h2 h = true -> Forall well_formed_section secs ->
  occurrences h (flat_map to_pending secs)
  + occurrences h (flat_map to_archived secs) =
  occurrences h (map fst secs).
Proof.
  intros Hh Hwf. induction Hwf as [|s secs Hs Hwf IH]; [reflexivity|].
  simpl flat_map. rewrite !occurrences_app.
  change (map fst (s :: secs)) with ([fst s] ++ map fst secs).
  rewrite occurrences_app, <- IH, <- (@header_in_section h s Hh Hs). lia.
Qed.

Lemma not_header_none (h : line) (ls : list line) :
  is_h2 h = true -> forallb (fun l => negb (is_h2 l)) ls = true ->
  occurrences h ls = 0.
Proof.
  intros Hh Hall. apply occurrences_none. intros Hin.
  rewrite forallb_forall in Hall. specialize (Hall h Hin).
  rewrite Hh in Hall. discriminate.
Qed.

(** ** Blank-line collapse *)

Lemma clean_loop_cleaned (lines result : list line) (prev_empty : bool) :
  clean_loop lines result prev_empty = result ++ cleaned prev_empty lines.
Proof.
  revert result prev_empty.
  induction lines as [|l lines IH]; intros result prev_empty; simpl.
  - rewrite app_nil_r. reflexivity.
  - destruct (is_blank l && prev_empty); rewrite IH; [reflexivity|].
    rewrite <- app_assoc. reflexivity.
Qed.

Lemma clean_empty_lines_cleaned (lines : list line) :
  clean_empty_lines lines = cleaned false lines.
Proof. unfold clean_empty_lines. apply clean_loop_cleaned. Qed.

(** After a blank line the next line kept is not blank. *)
Lemma cleaned_head (lines : list line) :
  match cleaned true lines with
  | [] => True
  | l :: _ => is_blank l = false
  end.
Proof.
  induction lines as [|l lines IH]; simpl; [exact I|].
  destruct (is_blank l) eqn:E; simpl; [exact IH | exact E].
Qed.

Lemma cleaned_no_blank_run (prev_empty : bool) (lines : list line) :
  no_blank_run (cleaned prev_empty lines).
Proof.
  revert prev_empty. induction lines as [|l lines IH]; intros prev_empty; simpl.
  - exact I.
  - destruct (is_blank l && prev_empty); [apply IH|].
    simpl. split; [|apply IH].
    destruct (is_blank l) eqn:E.
    + pose proof (cleaned_head lines) as Hh.
      destruct (cleaned true lines); [exact I|].
      intros [_ Hb]. congruence.
    + destruct (cleaned false lines); [exact I|]. intros [Hb _]. discriminate.
Qed.

Lemma cleaned_incl (prev_empty : bool) (lines : list line) (l : line) :
  In l (cleaned prev_empty lines) -> In l lines.
Proof.
  revert prev_empty. induction lines as [|x lines IH]; intros prev_empty; simpl.
  - intros [].
  - destruct (is_blank x && prev_empty).
    + intros H. right. exact (IH _ H).
    + intros [H|H]; [left; exact H | right; exact (IH _ H)].
Qed.

(** A line that is not blank is never removed. *)
Lemma cleaned_keeps (prev_empty : bool) (lines : list line) (l : line) :
  In l lines -> is_blank l = false -> In l (cleaned prev_empty lines).
Proof.
  intros Hin Hb. revert prev_empty.
  induction lines as [|x lines IH]; intros prev_empty; [destruct Hin|].
  simpl. destruct Hin as [->|Hin].
  - rewrite Hb. simpl. left. reflexivity.
  - destruct (is_blank x && prev_empty); [|right]; apply IH; exact Hin.
Qed.

(** ** Lines and texts *)

Lemma split_lines_nonempty (content : str) : split_lines content <> [].
Proof.
  destruct content as [|c content]; simpl; [discriminate|].
  destruct (c =? newline)%N; [discriminate|].
  destruct (split_lines content); discriminate.
Qed.

Lemma split_lines_no_newline (content : str) :
  Forall no_newline (split_lines content).
Proof.
  induction content as [|c content IH]; simpl.
  - constructor; [intros [] | constructor].
  - destruct (c =? newline)%N eqn:E.
    + constructor; [intros [] | exact IH].
    + apply N.eqb_neq in E.
      destruct (split_lines content) as [|l ls].
      * constructor; [|constructor]. intros [H|[]]. congruence.
      * inversion IH as [|? ? Hl Hls]; subst.
        constructor; [|exact Hls]. intros [H|H]; [congruence | exact (Hl H)].
Qed.

Lemma split_lines_app (l : line) (content : str) :
  no_newline l ->
  split_lines (l ++ newline :: content) = l :: split_lines content.
Proof.
  intros Hl. induction l as [|c l IH]; simpl.
  - reflexivity.
  - destruct (c =? newline)%N eqn:E.
    + apply N.eqb_eq in E. exfalso. apply Hl. left. exact E.
    + rewrite IH; [reflexivity|]. intros H. apply Hl. right. exact H.
Qed.

Lemma split_lines_one (l : line) : no_newline l -> split_lines l = [l].
Proof.
  intros Hl. induction l as [|c l IH]; simpl; [reflexivity|].
  destruct (c =? newline)%N eqn:E.
  - apply N.eqb_eq in E. exfalso. apply Hl. left. exact E.
  - rewrite IH; [reflexivity|]. intros H. apply Hl. right. exact H.
Qed.

(** Reading back a text that was joined gives the lines that were
    joined. *)
Lemma split_join (lines : list line) :
  lines <> [] -> Forall no_newline lines ->
  split_lines (join_lines lines) = lines.
Proof.
  intros Hne Hall. induction Hall as [|l ls Hl Hls IH]; [congruence|].
  destruct ls as [|l' ls].
  - simpl. apply split_lines_one. exact Hl.
  - change (join_lines (l :: l' :: ls)) with (l ++ newline :: join_lines (l' :: ls)).
    rewrite split_lines_app by exact Hl. f_equal. apply IH. discriminate.
Qed.

(** ** Where the lines of the buffers come from *)

Lemma sections_of_incl (lines : list line) :
  incl (fst (sections_of lines)) lines
  /\ (forall s, In s (snd (sections_of lines)) ->
        In (fst s) lines /\ incl (snd s) lines).
Proof.
  induction lines as [|l lines IH]; simpl.
  - split; [intros x [] | intros s []].
  - destruct (sections_of lines) as [body secs]. simpl in IH.
    destruct IH as [Hb Hs].
    destruct (is_h2 l); simpl.
    + split; [intros x []|]. intros s [<-|Hin]; simpl.
      * split; [left; reflexivity | apply incl_tl; exact Hb].
      * destruct (Hs s Hin) as [H1 H2].
        split; [right; exact H1 | apply incl_tl; exact H2].
    + destruct (is_h1 l); simpl.
      * split; [apply incl_tl; exact Hb|]. intros s Hin.
        destruct (Hs s Hin) as [H1 H2].
        split; [right; exact H1 | apply incl_tl; exact H2].
      * split; [apply incl_cons; [left; reflexivity | apply incl_tl; exact Hb]|].
        intros s Hin. destruct (Hs s Hin) as [H1 H2].
        split; [right; exact H1 | apply incl_tl; exact H2].
Qed.

Lemma to_pending_incl (s : line * list line) (l : line) :
  In l (to_pending s) -> l = fst s \/ In l (snd s).
Proof.
  rewrite to_pending_tagged.
  destruct (existsb (is_head false) (tagged None (snd s))); [|intros []].
  intros [H|H]; [left; congruence | right; exact (keep_incl _ _ _ _ H)].
Qed.

Lemma to_archived_incl (s : line * list line) (l : line) :
  In l (to_archived s) -> l = fst s \/ In l (snd s).
Proof.
  rewrite to_archived_tagged.
  destruct (existsb (is_head false) (tagged None (snd s))); [intros []|].
  intros [H|H]; [left; congruence | right; exact (keep_incl _ _ _ _ H)].
Qed.

(** Every line of a buffer is a line of its preamble or a line of the
    document. *)
Lemma buffers_incl (content : str) (l : line) :
  (In l (pending_output (assemble content)) ->
     In l pending_preamble \/ In l (split_lines content))
  /\ (In l (archived_output (assemble content)) ->
     In l archived_preamble \/ In l (split_lines content)).
Proof.
  destruct (assemble_sections content) as [Hp Ha]. rewrite Hp, Ha.
  destruct (sections_of_incl (split_lines content)) as [_ Hs].
  split; intros H; apply in_app_or in H; destruct H as [H|H];
    try (left; exact H); right;
    apply in_flat_map in H; destruct H as [s [Hin Hl]];
    destruct (Hs s Hin) as [H1 H2].
  - apply to_pending_incl in Hl. destruct Hl as [->|Hl]; [exact H1 | exact (H2 _ Hl)].
  - apply to_archived_incl in Hl. destruct Hl as [->|Hl]; [exact H1 | exact (H2 _ Hl)].
Qed.

Lemma preamble_no_newline :
  Forall no_newline pending_preamble /\ Forall no_newline archived_preamble.
Proof.
  assert (H : forall ls, forallb (fun l => negb (existsb (N.eqb newline) l)) ls = true ->
                         Forall no_newline ls).
  { intros ls Hall. apply Forall_forall. intros l Hl Hin.
    rewrite forallb_forall in Hall. specialize (Hall l Hl).
    apply negb_true_iff in Hall.
    assert (existsb (N.eqb newline) l = true); [|congruence].
    apply existsb_exists. exists newline. split; [exact Hin | apply N.eqb_refl]. }
  split; apply H; reflexivity.
Qed.

Lemma final_no_newline (content : str) :
  Forall no_newline (pending_final content)
  /\ Forall no_newline (archived_final content).
Proof.
  destruct preamble_no_newline as [Pp Pa].
  pose proof (split_lines_no_newline content) as Hc.
  rewrite Forall_forall in Pp, Pa, Hc.
  unfold pending_final, archived_final. rewrite !clean_empty_lines_cleaned.
  split; apply Forall_forall; intros l Hl; apply cleaned_incl in Hl;
    apply (buffers_incl content l) in Hl; destruct Hl as [Hl|Hl]; auto.
Qed.

Lemma final_nonempty (content : str) :
  pending_final content <> [] /\ archived_final content <> [].
Proof.
  destruct (assemble_sections content) as [Hp Ha].
  unfold pending_final, archived_final.
  rewrite !clean_empty_lines_cleaned, Hp, Ha.
  split; discriminate.
Qed.

(** The lines of the two texts are the lines that were joined. *)
Lemma text_lines (content : str) :
  split_lines (pending_text (main content)) = pending_final content
  /\ split_lines (archived_text (main content)) = archived_final content.
Proof.
  destruct (final_no_newline content) as [Np Na].
  destruct (final_nonempty content) as [Ep Ea].
  simpl. split; apply split_join; assumption.
Qed.

(** C7: [clean_empty_lines] leaves no two blank lines in a row, in any
    list; so neither text that a run produces has two blank lines in a
    row, a line being blank when stripping it leaves nothing. *)
Theorem no_consecutive_blank_lines (content : str) :
  (forall lines, no_blank_run (clean_empty_lines lines))
  /\ no_blank_run (split_lines (pending_text (main content)))
  /\ no_blank_run (split_lines (archived_text (main content))).
Proof.
  assert (H : forall lines, no_blank_run (clean_empty_lines lines)).
  { intros lines. rewrite clean_empty_lines_cleaned. apply cleaned_no_blank_run. }
  destruct (text_lines content) as [Tp Ta]. rewrite Tp, Ta.
  split; [exact H|]. split; apply H.
Qed.

(** ** Sections without a pending block *)

Lemma blank_not_task (l : line) : is_blank l = true -> is_task_line l = (false, false).
Proof.
  unfold is_blank, is_task_line. destruct (strip l); [reflexivity | discriminate].
Qed.

(** Without a pending marker line at the head of a block, every line is
    in [archived_lines]. *)
Lemma archived_whole (cur : open_block) (ls : list line) :
  not_pending_block cur ->
  existsb (is_head false) (tagged cur ls) = false ->
  keep in_archived (tagged cur ls) = ls.
Proof.
  revert cur. induction ls as [|l ls IH]; intros cur Hcur Hex; [reflexivity|].
  simpl in Hex. apply orb_false_iff in Hex. destruct Hex as [Hl Hex].
  simpl tagged. rewrite keep_cons. simpl fst.
  assert (Hstep : in_archived (l, fst (classify cur l)) = true
                  /\ not_pending_block (snd (classify cur l))).
  { unfold is_head in Hl. simpl in Hl. unfold in_archived. simpl snd.
    unfold classify, top_role in *.
    destruct cur as [[t c]|].
    - destruct (is_detail t l).
      + simpl. destruct c; [split; [reflexivity | exact I] | destruct Hcur].
      + destruct (fst (is_task_line l)); simpl in *; [|split; [reflexivity | exact I]].
        destruct (snd (is_task_line l)); [split; [reflexivity | exact I] | discriminate].
    - destruct (fst (is_task_line l)); simpl in *; [|split; [reflexivity | exact I]].
      destruct (snd (is_task_line l)); [split; [reflexivity | exact I] | discriminate]. }
  destruct Hstep as [Hin Hnext]. rewrite Hin. f_equal. apply IH; assumption.
Qed.

(** A section with no pending block is flushed to the archive whole. *)
Lemma archived_section (h : line) (body : list line) :
  existsb (is_head false) (tagged None body) = false ->
  process_section h body = (keep in_pending (tagged None body), body, false)
  /\ to_pending (h, body) = [] /\ to_archived (h, body) = h :: body.
Proof.
  intros Hex. rewrite to_pending_tagged, to_archived_tagged, process_section_tagged.
  simpl fst. simpl snd. rewrite Hex, (archived_whole None body I Hex).
  repeat split.
Qed.




(** The buffers around one section of the document. *)
Lemma section_in_document (content : str) (secs1 secs2 : list (line * list line))
    (s : line * list line) :
  snd (sections_of (split_lines content)) = secs1 ++ s :: secs2 ->
  pending_output (assemble content) =
    pending_preamble ++ flat_map to_pending secs1 ++ to_pending s
    ++ flat_map to_pending secs2
  /\ archived_output (assemble content) =
    archived_preamble ++ flat_map to_archived secs1 ++ to_archived s
    ++ flat_map to_archived secs2.
Proof.
  intros E. destruct (assemble_sections content) as [Hp Ha].
  rewrite Hp, Ha, E, !flat_map_app. split; reflexivity.
Qed.

Lemma dropWhile_snoc {A : Type} (p : A -> bool) (a : list A) (c : A) :
  p c = false -> dropWhile p (a ++ [c]) = dropWhile p a ++ [c].
Proof.
  intros Hc. induction a as [|x a IH]; simpl.
  - rewrite Hc. reflexivity.
  - destruct (p x); [exact IH | reflexivity].
Qed.

(** A string whose first character is not whitespace keeps it. *)
Lemma strip_head (c : char) (s : str) :
  isspace c = false ->
  lstrip (c :: s) = c :: s /\ exists r, strip (c :: s) = c :: r.
Proof.
  intros Hc.
  assert (E : lstrip (c :: s) = c :: s) by (unfold lstrip; simpl; rewrite Hc; reflexivity).
  split; [exact E|].
  unfold strip. rewrite E. unfold rstrip. simpl rev.
  rewrite dropWhile_snoc by exact Hc. rewrite rev_app_distr. simpl.
  eexists. reflexivity.
Qed.

(** A header is not blank, is no task line, and has indentation 0. *)
Lemma header_facts (h : line) :
  is_h2 h = true ->
  is_blank h = false /\ is_task_line h = (false, false) /\ get_indent h = 0.
Proof.
  intros Hh. apply startswith_begins in Hh. destruct Hh as [rest ->].
  change (lit "## " ++ rest) with (35%N :: (35%N :: 32%N :: rest)).
  unfold is_blank, is_task_line, get_indent.
  match goal with
  | |- context [strip (?c :: ?s)] =>
      destruct (@strip_head c s eq_refl) as [El [r Es]]
  end.
  rewrite Es, El.
  repeat split. apply Nat.sub_diag.
Qed.

(** A header text is in the pending buffer only as the header of a
    section that was flushed to it. *)
Lemma header_in_pending (h : line) (secs : list (line * list line)) :
  is_h2 h = true -> Forall well_formed_section secs ->
  In h (pending_preamble ++ flat_map to_pending secs) ->
  exists s, In s secs /\ fst s = h.
Proof.
  intros Hh Hwf Hin. apply in_app_or in Hin. destruct Hin as [Hin|Hin].
  - exfalso. pose proof (@not_header_none h pending_preamble Hh eq_refl) as H0.
    unfold occurrences in H0. apply count_occ_not_In in H0. exact (H0 Hin).
  - apply in_flat_map in Hin. destruct Hin as [s [Hs Hl]].
    exists s. split; [exact Hs|].
    apply to_pending_incl in Hl. destruct Hl as [->|Hl]; [reflexivity|].
    exfalso. rewrite Forall_forall in Hwf. destruct (Hwf s Hs) as [_ Hbody].
    rewrite Forall_forall in Hbody. destruct (Hbody h Hl). congruence.
Qed.

(** ** Pending markers nested in a completed block *)

Lemma is_detail_mono (t t' : nat) (l : line) :
  t' <= t -> is_detail t l = true -> is_detail t' l = true.
Proof.
  unfold is_detail. intros Hle H. apply orb_true_iff in H. apply orb_true_iff.
  destruct H as [H|H]; [left; exact H|]. right.
  apply Nat.ltb_lt in H. apply Nat.ltb_lt. lia.
Qed.

(** After a task line a block is open, and it is not indented deeper than
    that line. *)
Lemma classify_task (cur : open_block) (l : line) :
  fst (is_task_line l) = true ->
  exists t c, snd (classify cur l) = Some (t, c) /\ t <= get_indent l.
Proof.
  intros Ht.
  assert (Hb : is_blank l = false).
  { destruct (is_blank l) eqn:E; [|reflexivity].
    rewrite (blank_not_task l E) in Ht. discriminate. }
  assert (Htop : exists t c, snd (top_role l) = Some (t, c) /\ t <= get_indent l).
  { unfold top_role. rewrite Ht. simpl. eexists _, _. split; [reflexivity | lia]. }
  destruct cur as [[t c]|]; simpl; [|exact Htop].
  destruct (is_detail t l) eqn:Ed; [|exact Htop].
  exists t, c. split; [reflexivity|].
  unfold is_detail in Ed. rewrite Hb in Ed. simpl in Ed.
  apply Nat.ltb_lt in Ed. lia.
Qed.

(** A pending marker line that is covered is never met by the outer
    loop. *)
Lemma no_pending_head (ls : list line) (cur : open_block) :
  (forall k, k < length ls -> is_task_line (get ls k) = (true, false) ->
     covered cur ls k) ->
  existsb (is_head false) (tagged cur ls) = false.
Proof.
  revert cur. induction ls as [|l ls IH]; intros cur H; [reflexivity|].
  simpl. apply orb_false_iff. split.
  - unfold is_head. simpl snd.
    destruct (fst (classify cur l)) as [|c|c] eqn:Er; try reflexivity.
    destruct c; [reflexivity|]. exfalso.
    assert (Hl : is_task_line l = (true, false) /\ classify cur l = top_role l).
    { unfold classify, top_role in *.
      destruct cur as [[t c]|].
      - destruct (is_detail t l); [discriminate|].
        destruct (is_task_line l) as [a b]. simpl in *.
        destruct a; [|discriminate]. simpl in Er. split; congruence.
      - destruct (is_task_line l) as [a b]. simpl in *.
        destruct a; [|discriminate]. simpl in Er. split; congruence. }
    destruct Hl as [Hl Hc].
    destruct (H 0 (Nat.lt_0_succ _) Hl) as [(i & Hi & _)|(t & c & -> & Hd)]; [lia|].
    specialize (Hd 0 (Nat.le_refl _)). unfold get in Hd. simpl in Hd.
    unfold classify in Er. rewrite Hd in Er. discriminate.
  - apply IH. intros k Hk Hp.
    destruct (H (S k) (proj1 (Nat.succ_lt_mono _ _) Hk) Hp)
      as [(i & Hi & Hti & Hrun)|(t & c & -> & Hd)].
    + destruct i as [|i].
      * right. unfold get in Hti. simpl in Hti.
        destruct (classify_task cur l Hti) as (t & c & -> & Hle).
        exists t, c. split; [reflexivity|]. intros m Hm.
        apply (is_detail_mono (get_indent l) t); [exact Hle|].
        apply (Hrun (S m)). lia.
      * left. exists i. split; [lia|]. split; [exact Hti|].
        intros m Hm. apply (Hrun (S m)). lia.
    + right. pose proof (Hd 0 (Nat.le_0_l _)) as H0.
      unfold get in H0. simpl in H0. simpl. rewrite H0. simpl.
      exists t, c. split; [reflexivity|]. intros m Hm. apply (Hd (S m)). lia.
Qed.

(** C10: when every pending marker line of a section lies in the run of
    detail lines (blank, or indented deeper) that follows a "- [x]" task
    line before it, [has_pending] is false and [archived_lines] is the
    whole body, so the header and the whole body, those "- [ ]" lines
    too, go to the archive buffer and nothing of the section to the
    pending buffer. *)
Theorem nested_pending_section_archived (content : str)
    (secs1 secs2 : list (line * list line)) (h : line) (body : list line) :
  snd (sections_of (split_lines content)) = secs1 ++ (h, body) :: secs2 ->
  (forall k, k < length body -> is_task_line (get body k) = (true, false) ->
     exists i, i < k /\ is_task_line (get body i) = (true, true)
       /\ forall m, i < m <= k ->
            is_blank (get body m) = true
            \/ get_indent (get body i) < get_indent (get body m)) ->
  snd (process_section h body) = false
  /\ snd (fst (process_section h body)) = body
  /\ archived_output (assemble content) =
       archived_preamble ++ flat_map to_archived secs1 ++ (h :: body)
       ++ flat_map to_archived secs2
  /\ pending_output (assemble content) =
       pending_preamble ++ flat_map to_pending secs1
       ++ flat_map to_pending secs2
  /\ (forall l, In l (h :: body) -> is_blank l = false ->
        In l (archived_final content)).
Proof.
  intros E Hnest.
  assert (Hex : existsb (is_head false) (tagged None body) = false).
  { apply no_pending_head. intros k Hk Hp. left.
    destruct (Hnest k Hk Hp) as (i & Hi & Hti & Hrun).
    exists i. split; [exact Hi|]. split; [rewrite Hti; reflexivity|].
    intros m Hm. unfold is_detail. apply orb_true_iff.
    destruct (Hrun m Hm) as [Hb|Hlt]; [left; exact Hb|].
    right. apply Nat.ltb_lt. exact Hlt. }
  destruct (archived_section h body Hex) as (Hps & Htp & Hta).
  destruct (section_in_document content secs1 secs2 _ E) as [Hp Ha].
  rewrite Htp in Hp. rewrite Hta in Ha. simpl app in Hp.
  rewrite Hps. simpl.
  split; [reflexivity|]. split; [reflexivity|].
  split; [exact Ha|]. split; [exact Hp|].
  intros l Hl Hb. unfold archived_final. rewrite clean_empty_lines_cleaned.
  apply cleaned_keeps; [|exact Hb].
  rewrite Ha. apply in_or_app. right. apply in_or_app. right.
  apply in_or_app. left. exact Hl.
Qed.

(** The theorem on a completed task with a pending marker line nested in
    it. *)
Lemma nested_pending_section_archived_witness :
  snd (sections_of (split_lines nested_doc)) =
    [] ++ (lit "## A", [lit "- [x] done"; lit "  - [ ] sub"]) :: []
  /\ (forall k, k < length [lit "- [x] done"; lit "  - [ ] sub"] ->
        is_task_line (get [lit "- [x] done"; lit "  - [ ] sub"] k) = (true, false) ->
        exists i, i < k
          /\ is_task_line (get [lit "- [x] done"; lit "  - [ ] sub"] i) = (true, true)
          /\ forall m, i < m <= k ->
               is_blank (get [lit "- [x] done"; lit "  - [ ] sub"] m) = true
               \/ get_indent (get [lit "- [x] done"; lit "  - [ ] sub"] i)
                  < get_indent (get [lit "- [x] done"; lit "  - [ ] sub"] m))
  /\ snd (process_section (lit "## A") [lit "- [x] done"; lit "  - [ ] sub"]) = false
  /\ snd (fst (process_section (lit "## A") [lit "- [x] done"; lit "  - [ ] sub"]))
     = [lit "- [x] done"; lit "  - [ ] sub"]
  /\ In (lit "  - [ ] sub") (archived_final nested_doc).
Proof.
  assert (H1 : snd (sections_of (split_lines nested_doc)) =
               [] ++ (lit "## A", [lit "- [x] done"; lit "  - [ ] sub"]) :: [])
    by (vm_compute; reflexivity).
  assert (H2 : forall k, k < length [lit "- [x] done"; lit "  - [ ] sub"] ->
        is_task_line (get [lit "- [x] done"; lit "  - [ ] sub"] k) = (true, false) ->
        exists i, i < k
          /\ is_task_line (get [lit "- [x] done"; lit "  - [ ] sub"] i) = (true, true)
          /\ forall m, i < m <= k ->
               is_blank (get [lit "- [x] done"; lit "  - [ ] sub"] m) = true
               \/ get_indent (get [lit "- [x] done"; lit "  - [ ] sub"] i)
                  < get_indent (get [lit "- [x] done"; lit "  - [ ] sub"] m)).
  { intros k Hk Hp. destruct k as [|[|k]]; [discriminate Hp | | simpl in Hk; lia].
    exists 0. split; [lia|]. split; [reflexivity|].
    intros m Hm. assert (m = 1) as -> by lia. right. vm_compute. lia. }
  split; [exact H1|]. split; [exact H2|].
  destruct (nested_pending_section_archived nested_doc [] []
              (lit "## A") [lit "- [x] done"; lit "  - [ ] sub"] H1 H2)
    as (Hhp & Harch & _ & _ & Hkept).
  split; [exact Hhp|]. split; [exact Harch|].
  apply Hkept; [right; right; left; reflexivity | reflexivity].
Defined.

(** ** Counting task markers: lemmas *)

Lemma count_app (p : line -> bool) (a b : list line) :
  count p (a ++ b) = count p a + count p b.
Proof. unfold count. rewrite filter_app, length_app. reflexivity. Qed.

Lemma count_cons (p : line -> bool) (l : line) (ls : list line) :
  count p (l :: ls) = (if p l then 1 else 0) + count p ls.
Proof. unfold count. simpl. destruct (p l); reflexivity. Qed.

Lemma count_weaken (p q : line -> bool) (ls : list line) :
  (forall l, p l = true -> q l = true) -> count p ls <= count q ls.
Proof.
  intros Hpq. induction ls as [|l ls IH]; [apply Nat.le_refl|].
  rewrite !count_cons. destruct (p l) eqn:E.
  - rewrite (Hpq l E). lia.
  - destruct (q l); lia.
Qed.

Lemma count_cleaned (p : line -> bool) (prev_empty : bool) (ls : list line) :
  count p (cleaned prev_empty ls) <= count p ls.
Proof.
  revert prev_empty. induction ls as [|l ls IH]; intros prev_empty; simpl.
  - apply Nat.le_refl.
  - destruct (is_blank l && prev_empty); rewrite ?count_cons.
    + specialize (IH prev_empty). lia.
    + specialize (IH (is_blank l)). lia.
Qed.

Lemma count_keep (p : line -> bool) (f : line * role -> bool)
    (cur : open_block) (ls : list line) :
  count p (keep f (tagged cur ls)) <= count p ls.
Proof.
  revert cur. induction ls as [|l ls IH]; intros cur; [apply Nat.le_refl|].
  simpl tagged. rewrite keep_cons. simpl fst.
  specialize (IH (snd (classify cur l))).
  destruct (f (l, fst (classify cur l))); rewrite ?count_cons; lia.
Qed.

(** The markers a section gives to the two buffers are markers of its
    body. *)
Lemma count_section (s : line * list line) :
  well_formed_section s ->
  count is_marker (to_pending s) + count is_marker (to_archived s)
  <= count is_marker (snd s).
Proof.
  intros [Hh _]. rewrite to_pending_tagged, to_archived_tagged.
  assert (Hm : is_marker (fst s) = false).
  { unfold is_marker. destruct (header_facts (fst s) Hh) as (_ & -> & _). reflexivity. }
  destruct (existsb (is_head false) (tagged None (snd s)));
    rewrite count_cons, Hm; simpl; rewrite ?Nat.add_0_r; apply count_keep.
Qed.

Lemma count_sections (secs : list (line * list line)) :
  Forall well_formed_section secs ->
  count is_marker (flat_map to_pending secs)
  + count is_marker (flat_map to_archived secs)
  <= count is_marker (flat_map snd secs).
Proof.
  intros Hwf. induction Hwf as [|s secs Hs Hwf IH]; [apply Nat.le_refl|].
  simpl flat_map. rewrite !count_app. pose proof (count_section s Hs). lia.
Qed.

(** The bodies of the sections are parts of the document. *)
Lemma count_bodies (p : line -> bool) (lines : list line) :
  count p (fst (sections_of lines))
  + count p (flat_map snd (snd (sections_of lines)))
  <= count p lines.
Proof.
  induction lines as [|l lines IH]; [apply Nat.le_refl|].
  simpl sections_of. destruct (sections_of lines) as [body secs].
  simpl fst in IH. simpl snd in IH. rewrite (count_cons p l lines).
  destruct (is_h2 l); simpl fst; simpl snd.
  - simpl flat_map. rewrite count_app. unfold count at 1. simpl. lia.
  - destruct (is_h1 l); simpl fst; simpl snd; rewrite ?count_cons; lia.
Qed.

(** ** Scanning an output again *)

Lemma tagged_app (cur : open_block) (a b : list line) :
  tagged cur (a ++ b) = tagged cur a ++ tagged (state_after cur a) b.
Proof.
  revert cur. induction a as [|l a IH]; intros cur; [reflexivity|].
  simpl. rewrite IH. reflexivity.
Qed.

(** A blank line opens and closes nothing. *)
Lemma classify_blank (cur : open_block) (l : line) :
  is_blank l = true ->
  snd (classify cur l) = cur /\ forall b, is_head b (l, fst (classify cur l)) = false.
Proof.
  intros Hb. unfold classify, top_role, is_detail.
  rewrite Hb, (blank_not_task l Hb). simpl.
  destruct cur as [[t c]|]; split; reflexivity.
Qed.

Lemma heads_cleaned (b : bool) (cur : open_block) (prev_empty : bool) (ls : list line) :
  existsb (is_head b) (tagged cur (cleaned prev_empty ls)) =
  existsb (is_head b) (tagged cur ls).
Proof.
  revert cur prev_empty. induction ls as [|l ls IH]; intros cur prev_empty; [reflexivity|].
  simpl cleaned. destruct (is_blank l && prev_empty) eqn:E.
  - apply andb_true_iff in E. destruct E as [Hb _].
    destruct (classify_blank cur l Hb) as [Hs Hh].
    simpl tagged. simpl existsb. rewrite Hs, Hh. simpl. apply IH.
  - simpl. rewrite IH. reflexivity.
Qed.

(** A header closes the open block. *)
Lemma classify_header (cur : open_block) (h : line) :
  is_h2 h = true -> classify cur h = (Ordinary, None).
Proof.
  intros Hh. destruct (header_facts h Hh) as (Hb & Ht & Hi).
  unfold classify, top_role, is_detail. rewrite Hb, Ht, Hi. simpl.
  destruct cur as [[t c]|]; reflexivity.
Qed.

Lemma tagged_header_led (cur : open_block) (ls : list line) :
  header_led ls -> tagged cur ls = tagged None ls.
Proof.
  destruct ls as [|h ls]; [reflexivity|]. intros Hh. cbn [tagged].
  rewrite (classify_header cur h Hh), (classify_header None h Hh). reflexivity.
Qed.

Lemma heads_before_header (b : bool) (cur : open_block) (a rest : list line) :
  header_led rest ->
  existsb (is_head b) (tagged cur (a ++ rest)) =
  existsb (is_head b) (tagged cur a) || existsb (is_head b) (tagged None rest).
Proof.
  intros Hl. rewrite tagged_app, existsb_app.
  rewrite (tagged_header_led _ rest Hl). reflexivity.
Qed.

Lemma header_led_sections (f : line * list line -> list line)
    (secs : list (line * list line)) :
  (forall s, header_led (f s)) -> header_led (flat_map f secs).
Proof.
  intros Hf. induction secs as [|s secs IH]; [exact I|].
  simpl. pose proof (Hf s) as Hs.
  destruct (f s) as [|h t]; [exact IH | exact Hs].
Qed.

Lemma to_pending_header_led (s : line * list line) :
  well_formed_section s -> header_led (to_pending s).
Proof.
  intros [Hh _]. rewrite to_pending_tagged.
  destruct (existsb (is_head false) (tagged None (snd s))); [exact Hh | exact I].
Qed.

Lemma to_archived_header_led (s : line * list line) :
  well_formed_section s -> header_led (to_archived s).
Proof.
  intros [Hh _]. rewrite to_archived_tagged.
  destruct (existsb (is_head false) (tagged None (snd s))); [exact I | exact Hh].
Qed.

(** No head of one kind in what each section adds: none in the buffer
    part made of all of them. *)
Lemma heads_sections (b : bool) (f : line * list line -> list line)
    (secs : list (line * list line)) :
  Forall (fun s => header_led (f s)
                   /\ existsb (is_head b) (tagged None (f s)) = false) secs ->
  header_led (flat_map f secs)
  /\ existsb (is_head b) (tagged None (flat_map f secs)) = false.
Proof.
  intros H. induction H as [|s secs [Hl Hs] _ [IHl IH]]; [split; reflexivity|].
  simpl flat_map. split.
  - destruct (f s) as [|h t]; [exact IHl | exact Hl].
  - rewrite (heads_before_header b None (f s) _ IHl), Hs, IH. reflexivity.
Qed.

Lemma not_detail (t : nat) (l : line) :
  is_detail t l = false -> is_blank l = false /\ get_indent l <= t.
Proof.
  unfold is_detail. intros H. apply orb_false_iff in H. destruct H as [Hb Hlt].
  apply Nat.ltb_ge in Hlt. split; assumption.
Qed.

Lemma not_detail_deeper (t t' : nat) (l : line) :
  t <= t' -> is_detail t l = false -> is_detail t' l = false.
Proof.
  intros Hle H. destruct (not_detail t l H) as [Hb Hi].
  unfold is_detail. rewrite Hb. simpl. apply Nat.ltb_ge. lia.
Qed.

(** A line met by the outer loop, in both scans. *)
Lemma rescan_top (l : line) (cur' : open_block) :
  classify cur' l = top_role l ->
  (forall t', cur' = Some (t', false) -> get_indent l <= t') ->
  (cur' = None \/ exists t', cur' = Some (t', false)) ->
  if in_pending (l, fst (top_role l))
  then classify cur' l = top_role l
       /\ rescan_ok (snd (top_role l)) (snd (top_role l))
  else rescan_ok (snd (top_role l)) cur'.
Proof.
  intros Hc Hind Hshape. unfold top_role in *. unfold in_pending. simpl snd.
  destruct (is_task_line l) as [a b]. simpl fst in *. simpl snd in *.
  destruct a; simpl; [|split; [exact Hc | reflexivity]].
  destruct b; simpl; [|split; [exact Hc | reflexivity]].
  destruct Hshape as [->|[t' ->]]; [exact I|].
  split; [reflexivity | apply (Hind t' eq_refl)].
Qed.

Lemma rescan_step (cur cur' : open_block) (l : line) :
  rescan_ok cur cur' ->
  if in_pending (l, fst (classify cur l))
  then classify cur' l = classify cur l
       /\ rescan_ok (snd (classify cur l)) (snd (classify cur l))
  else rescan_ok (snd (classify cur l)) cur'.
Proof.
  intros Hok. destruct cur as [[t c]|].
  - destruct c.
    + (* inside a completed block *)
      assert (Hcl : classify (Some (t, true)) l =
                    if is_detail t l then (Detail true, Some (t, true))
                    else top_role l) by reflexivity.
      rewrite Hcl. clear Hcl. destruct (is_detail t l) eqn:Ed.
      * exact Hok.
      * simpl in Hok.
        assert (Hc : classify cur' l = top_role l).
        { destruct cur' as [[t' c']|]; [|reflexivity].
          destruct Hok as [_ Hle]. simpl.
          rewrite (not_detail_deeper t t' l Hle Ed). reflexivity. }
        pose proof (rescan_top l cur' Hc) as Htop.
        destruct (in_pending (l, fst (top_role l))).
        -- destruct Htop as [Hc' Hr].
           ++ intros t' ->. destruct Hok as [_ Hle].
              destruct (not_detail t l Ed). lia.
           ++ destruct cur' as [[t' c']|]; [right | left; reflexivity].
              destruct Hok as [-> _]. exists t'. reflexivity.
           ++ split; [exact Hc | exact Hr].
        -- apply Htop.
           ++ intros t' ->. destruct Hok as [_ Hle].
              destruct (not_detail t l Ed). lia.
           ++ destruct cur' as [[t' c']|]; [right | left; reflexivity].
              destruct Hok as [-> _]. exists t'. reflexivity.
    + (* inside a pending block *)
      simpl in Hok. subst cur'.
      unfold classify. destruct (is_detail t l) eqn:Ed.
      * simpl. split; reflexivity.
      * assert (Hc : classify (Some (t, false)) l = top_role l)
          by (simpl; rewrite Ed; reflexivity).
        pose proof (rescan_top l (Some (t, false)) Hc) as Htop.
        destruct (in_pending (l, fst (top_role l))).
        -- destruct Htop as [_ Hr].
           ++ intros t' E. injection E as <-. destruct (not_detail t l Ed). lia.
           ++ right. exists t. reflexivity.
           ++ split; [reflexivity | exact Hr].
        -- apply Htop.
           ++ intros t' E. injection E as <-. destruct (not_detail t l Ed). lia.
           ++ right. exists t. reflexivity.
  - (* outside every block *)
    simpl in Hok. subst cur'.
    pose proof (rescan_top l None eq_refl) as Htop.
    change (classify None l) with (top_role l).
    destruct (in_pending (l, fst (top_role l))).
    + destruct Htop as [_ Hr]; [discriminate | left; reflexivity|].
      split; [reflexivity | exact Hr].
    + apply Htop; [discriminate | left; reflexivity].
Qed.

(** Scanning [pending_lines] again gives every line the role it had. *)
Lemma rescan_pending (ls : list line) (cur cur' : open_block) :
  rescan_ok cur cur' ->
  tagged cur' (keep in_pending (tagged cur ls)) = filter in_pending (tagged cur ls).
Proof.
  revert cur cur'. induction ls as [|l ls IH]; intros cur cur' Hok; [reflexivity|].
  cbn [tagged]. rewrite keep_cons. cbn [filter fst].
  pose proof (rescan_step cur cur' l Hok) as Hstep.
  destruct (in_pending (l, fst (classify cur l))).
  - destruct Hstep as [Hc Hr]. cbn [tagged]. rewrite Hc. f_equal.
    apply IH. exact Hr.
  - apply IH. exact Hstep.
Qed.

Lemma no_completed_head_kept (tl : list (line * role)) :
  existsb (is_head true) (filter in_pending tl) = false.
Proof.
  induction tl as [|[l r] tl IH]; [reflexivity|].
  simpl. destruct (in_pending (l, r)) eqn:E; [|exact IH].
  simpl. rewrite IH. unfold in_pending in E. unfold is_head. simpl in *.
  destruct r as [|c|c]; try reflexivity. destruct c; [discriminate | reflexivity].
Qed.

Lemma heads_after_header (b : bool) (h : line) (ls : list line) :
  is_h2 h = true ->
  existsb (is_head b) (tagged None (h :: ls)) = existsb (is_head b) (tagged None ls).
Proof.
  intros Hh. cbn [tagged]. rewrite (classify_header None h Hh). reflexivity.
Qed.

(** What a section adds to the pending buffer has no completed block. *)
Lemma to_pending_no_completed (s : line * list line) :
  well_formed_section s ->
  header_led (to_pending s)
  /\ existsb (is_head true) (tagged None (to_pending s)) = false.
Proof.
  intros Hwf. split; [apply to_pending_header_led; exact Hwf|].
  destruct Hwf as [Hh _]. rewrite to_pending_tagged.
  destruct (existsb (is_head false) (tagged None (snd s))); [|reflexivity].
  rewrite (heads_after_header true _ _ Hh).
  rewrite (rescan_pending (snd s) None None eq_refl).
  apply no_completed_head_kept.
Qed.

(** What a section adds to the archive buffer has no pending block. *)
Lemma to_archived_no_pending (s : line * list line) :
  well_formed_section s ->
  header_led (to_archived s)
  /\ existsb (is_head false) (tagged None (to_archived s)) = false.
Proof.
  intros Hwf. split; [apply to_archived_header_led; exact Hwf|].
  destruct Hwf as [Hh _]. rewrite to_archived_tagged.
  destruct (existsb (is_head false) (tagged None (snd s))) eqn:Hex; [reflexivity|].
  rewrite (heads_after_header false _ _ Hh).
  rewrite (archived_whole None (snd s) I Hex). exact Hex.
Qed.

(** ** The scenario with a mixed section *)

Lemma mixed_final :
  pending_final mixed_doc = pending_preamble ++ [lit "## A"; lit "- [ ] todo1"]
  /\ archived_final mixed_doc = archived_preamble.
Proof. split; vm_compute; reflexivity. Qed.

Lemma mixed_lost (l : line) :
  l = lit "- [x] done1" \/ l = lit "  detail1" ->
  ~ In l (pending_final mixed_doc) /\ ~ In l (archived_final mixed_doc).
Proof.
  destruct mixed_final as [-> ->].
  intros [->| ->]; split; intros H;
    repeat (destruct H as [H|H]; [discriminate H|]); exact H.
Qed.

(** The completed task of the mixed section is not in the pending
    text. *)
Lemma mixed_section_not_whole : ~ mixed_section_whole_in_pending.
Proof.
  unfold mixed_section_whole_in_pending.
  destruct (text_lines mixed_doc) as [-> ->].
  intros (_ & _ & _ & Hd & _).
  exact (proj1 (mixed_lost _ (or_introl eq_refl)) Hd).
Qed.

(** C3, as the code has it: for the section "## A" with the lines
    "- [ ] todo1", "- [x] done1", "  detail1", the pending text is its
    preamble followed by "## A" and "- [ ] todo1"; the archive text is its
    preamble alone, so it has no "## A"; the completed task "- [x] done1"
    and its detail line are in neither text. *)
Theorem mixed_section_scenario :
  split_lines (pending_text (main mixed_doc)) =
    pending_preamble ++ [lit "## A"; lit "- [ ] todo1"]
  /\ split_lines (archived_text (main mixed_doc)) = archived_preamble
  /\ ~ In (lit "## A") (split_lines (archived_text (main mixed_doc)))
  /\ ~ In (lit "- [x] done1") (split_lines (pending_text (main mixed_doc)))
  /\ ~ In (lit "  detail1") (split_lines (pending_text (main mixed_doc)))
  /\ ~ In (lit "- [x] done1") (split_lines (archived_text (main mixed_doc)))
  /\ ~ In (lit "  detail1") (split_lines (archived_text (main mixed_doc)))
  /\ pending_report (main mixed_doc) = (1, 6)
  /\ archived_report (main mixed_doc) = (0, 4).
Proof.
  destruct (text_lines mixed_doc) as [-> ->].
  pose proof (mixed_lost (lit "- [x] done1") (or_introl eq_refl)) as [H1 H2].
  pose proof (mixed_lost (lit "  detail1") (or_intror eq_refl)) as [H3 H4].
  destruct mixed_final as [Ep Ea].
  split; [exact Ep|]. split; [exact Ea|]. split.
  { rewrite Ea. intros H.
    repeat (destruct H as [H|H]; [discriminate H|]). exact H. }
  split; [exact H1|]. split; [exact H3|]. split; [exact H2|]. split; [exact H4|].
  split; vm_compute; reflexivity.
Qed.

(** ** Completeness *)




(** ** Task conservation *)



(** ** Blocks of the two outputs *)

Lemma nested_final :
  archived_final nested_doc =
  archived_preamble ++ [lit "## A"; lit "- [x] done"; lit "  - [ ] sub"].
Proof. vm_compute. reflexivity. Qed.

(** A pending marker line nested in a completed block is a line of the
    archive text. *)
Lemma nested_marker_in_archive : ~ outputs_separated nested_doc.
Proof.
  unfold outputs_separated. intros [_ H].
  destruct (text_lines nested_doc) as [_ Ta]. rewrite Ta, nested_final in H.
  vm_compute in H. discriminate H.
Qed.

(** C4, as the code has it: scanned as a section is, the pending text has
    no block with a completed marker line and the archive text has no
    block with a pending marker line.  (A marker line of the other kind
    can be a detail line of a block.) *)
Theorem outputs_blocks_separated (content : str) :
  existsb (is_head true)
    (tagged None (split_lines (pending_text (main content)))) = false
  /\ existsb (is_head false)
    (tagged None (split_lines (archived_text (main content)))) = false.
Proof.
  destruct (text_lines content) as [-> ->].
  unfold pending_final, archived_final.
  rewrite !clean_empty_lines_cleaned, !heads_cleaned.
  destruct (assemble_sections content) as [-> ->].
  destruct (sections_of_well_formed (split_lines content)) as [_ Hwf].
  destruct (heads_sections true to_pending (snd (sections_of (split_lines content))))
    as [Lp Hp].
  { eapply Forall_impl; [|exact Hwf]. apply to_pending_no_completed. }
  destruct (heads_sections false to_archived (snd (sections_of (split_lines content))))
    as [La Ha].
  { eapply Forall_impl; [|exact Hwf]. apply to_archived_no_pending. }
  rewrite (heads_before_header true None _ _ Lp), Hp.
  rewrite (heads_before_header false None _ _ La), Ha.
  split; vm_compute; reflexivity.
Qed.

(** ** Whitespace: indentation and blank lines *)

Lemma dropWhile_all {A : Type} (p : A -> bool) (l : list A) :
  forallb p l = true -> dropWhile p l = [].
Proof.
  induction l as [|x l IH]; simpl; [reflexivity|].
  intros H. apply andb_true_iff in H. destruct H as [Hx Hl].
  rewrite Hx. exact (IH Hl).
Qed.

Lemma dropWhile_some {A : Type} (p : A -> bool) (l : list A) :
  forallb p l = false -> exists c r, dropWhile p l = c :: r /\ p c = false.
Proof.
  induction l as [|x l IH]; simpl; [discriminate|].
  destruct (p x) eqn:E; simpl; [exact IH|].
  intros _. exists x, l. split; [reflexivity | exact E].
Qed.

Lemma dropWhile_app_all {A : Type} (p : A -> bool) (a l : list A) :
  forallb p a = true -> dropWhile p (a ++ l) = dropWhile p l.
Proof.
  induction a as [|x a IH]; simpl; [reflexivity|].
  intros H. apply andb_true_iff in H. destruct H as [Hx Ha].
  rewrite Hx. exact (IH Ha).
Qed.

Lemma dropWhile_app_some {A : Type} (p : A -> bool) (l b : list A) :
  forallb p l = false -> dropWhile p (l ++ b) = dropWhile p l ++ b.
Proof.
  induction l as [|x l IH]; simpl; [discriminate|].
  destruct (p x); simpl; [exact IH | reflexivity].
Qed.

Lemma takeWhile_length {A : Type} (p : A -> bool) (l : list A) :
  length l = length (takeWhile p l) + length (dropWhile p l).
Proof.
  rewrite (take_drop_while p l) at 1. apply length_app.
Qed.

Lemma forallb_rev {A : Type} (p : A -> bool) (l : list A) :
  forallb p (rev l) = forallb p l.
Proof.
  induction l as [|x l IH]; [reflexivity|].
  simpl. rewrite forallb_app, IH. simpl. rewrite andb_true_r. apply andb_comm.
Qed.

(** X1: the indentation of a line is the length of its longest prefix of
    whitespace characters; what follows that prefix does not begin with
    whitespace. *)
Theorem get_indent_leading_whitespace (l : line) :
  exists ws rest,
    l = ws ++ rest
    /\ forallb isspace ws = true
    /\ no_leading_space rest
    /\ get_indent l = length ws
    /\ get_indent l <= length l.
Proof.
  exists (takeWhile isspace l), (lstrip l).
  destruct (lstrip_split l) as [E Hl].
  pose proof (takeWhile_length isspace l) as Hlen.
  unfold get_indent, lstrip in *.
  repeat split; try assumption; try lia.
  apply takeWhile_all.
Qed.

Lemma rstrip_all (s : str) : forallb isspace s = true -> rstrip s = [].
Proof.
  intros H. unfold rstrip. rewrite dropWhile_all; [reflexivity|].
  rewrite forallb_rev. exact H.
Qed.

Lemma rstrip_some (s : str) :
  forallb isspace s = false -> rstrip s <> [].
Proof.
  intros H. unfold rstrip.
  destruct (dropWhile_some isspace (rev s)) as (c & r & E & _).
  { rewrite forallb_rev. exact H. }
  rewrite E. simpl. intros Hnil. apply app_eq_nil in Hnil.
  destruct Hnil as [_ Hnil]. discriminate.
Qed.

Lemma lstrip_not_all (s : str) :
  forallb isspace s = false -> forallb isspace (lstrip s) = false.
Proof.
  intros H. destruct (dropWhile_some isspace s H) as (c & r & E & Hc).
  unfold lstrip. rewrite E. simpl. rewrite Hc. reflexivity.
Qed.

(** X2: a line is blank exactly when all its characters are whitespace;
    the indentation of a blank line is its length. *)
Theorem is_blank_all_whitespace (l : line) :
  is_blank l = forallb isspace l
  /\ (is_blank l = true -> get_indent l = length l).
Proof.
  assert (H : is_blank l = forallb isspace l).
  { unfold is_blank, strip. destruct (forallb isspace l) eqn:E.
    - unfold lstrip. rewrite (dropWhile_all isspace l E). reflexivity.
    - pose proof (rstrip_some (lstrip l) (lstrip_not_all l E)) as Hne.
      destruct (rstrip (lstrip l)); [congruence | reflexivity]. }
  split; [exact H|]. rewrite H. intros Hall.
  unfold get_indent, lstrip. rewrite (dropWhile_all isspace l Hall). simpl. lia.
Qed.

Lemma rstrip_app_all (s b : str) :
  forallb isspace b = true -> rstrip (s ++ b) = rstrip s.
Proof.
  intros Hb. unfold rstrip. rewrite rev_app_distr.
  rewrite dropWhile_app_all; [reflexivity|]. rewrite forallb_rev. exact Hb.
Qed.

(** Whitespace around a string does not change what [strip] returns. *)
Lemma strip_padding (a s b : str) :
  forallb isspace a = true -> forallb isspace b = true ->
  strip (a ++ s ++ b) = strip s.
Proof.
  intros Ha Hb. unfold strip, lstrip.
  rewrite (dropWhile_app_all isspace a (s ++ b) Ha).
  destruct (forallb isspace s) eqn:Es.
  - rewrite (dropWhile_app_all isspace s b Es), (dropWhile_all isspace b Hb).
    rewrite (dropWhile_all isspace s Es). reflexivity.
  - rewrite (dropWhile_app_some isspace s b Es). apply rstrip_app_all. exact Hb.
Qed.

(** X3: whitespace before and after a line changes neither flag of the
    classifier nor whether the line is blank, and whitespace put before a
    line adds its length to the indentation. *)
Theorem is_task_line_padding (a s b : str) :
  forallb isspace a = true -> forallb isspace b = true ->
  is_task_line (a ++ s ++ b) = is_task_line s
  /\ is_blank (a ++ s ++ b) = is_blank s
  /\ get_indent (a ++ s) = length a + get_indent s.
Proof.
  intros Ha Hb. unfold is_task_line, is_blank.
  rewrite (strip_padding a s b Ha Hb). split; [reflexivity|]. split; [reflexivity|].
  unfold get_indent, lstrip. rewrite (dropWhile_app_all isspace a s Ha).
  rewrite length_app. pose proof (dropWhile_length isspace s). lia.
Qed.

(** The theorem on a nested pending task with trailing spaces. *)
Lemma is_task_line_padding_witness :
  forallb isspace (lit "    ") = true /\ forallb isspace (lit "  ") = true
  /\ is_task_line (lit "    " ++ lit "- [ ] sub" ++ lit "  ")
     = is_task_line (lit "- [ ] sub").
Proof.
  split; [reflexivity|]. split; [reflexivity|].
  apply (is_task_line_padding (lit "    ") (lit "- [ ] sub") (lit "  "));
    reflexivity.
Defined.

(** ** The two lists of a section *)

Lemma subseq_refl (ls : list line) : subseq ls ls.
Proof. induction ls as [|l ls IH]; [constructor | apply subseq_keep; exact IH]. Qed.

Lemma subseq_nil_l (ls : list line) : subseq [] ls.
Proof. induction ls as [|l ls IH]; [constructor | apply subseq_skip; exact IH]. Qed.

Lemma subseq_app (a a' b b' : list line) :
  subseq a a' -> subseq b b' -> subseq (a ++ b) (a' ++ b').
Proof.
  intros Ha Hb. induction Ha as [|l a a' Ha IH|l a a' Ha IH]; simpl.
  - exact Hb.
  - apply subseq_skip. exact IH.
  - apply subseq_keep. exact IH.
Qed.

Lemma subseq_trans (a b c : list line) :
  subseq a b -> subseq b c -> subseq a c.
Proof.
  intros Hab Hbc. revert a Hab.
  induction Hbc as [|l b c Hbc IH|l b c Hbc IH]; intros a Hab.
  - exact Hab.
  - apply subseq_skip. apply IH. exact Hab.
  - inversion Hab as [|l' a' b' Hab'|l' a' b' Hab']; subst.
    + apply subseq_skip. apply IH. exact Hab'.
    + apply subseq_keep. apply IH. exact Hab'.
Qed.

Lemma subseq_incl (a b : list line) (l : line) : subseq a b -> In l a -> In l b.
Proof.
  intros H. induction H as [|x a b H IH|x a b H IH]; intros Hin.
  - exact Hin.
  - right. exact (IH Hin).
  - destruct Hin as [->|Hin]; [left; reflexivity | right; exact (IH Hin)].
Qed.

Lemma subseq_length (a b : list line) : subseq a b -> length a <= length b.
Proof.
  intros H. induction H as [|x a b H IH|x a b H IH]; simpl; lia.
Qed.

Lemma keep_subseq (f : line * role -> bool) (cur : open_block) (ls : list line) :
  subseq (keep f (tagged cur ls)) ls.
Proof.
  revert cur. induction ls as [|l ls IH]; intros cur; [constructor|].
  cbn [tagged]. rewrite keep_cons. cbn [fst].
  destruct (f (l, fst (classify cur l))).
  - apply subseq_keep. apply IH.
  - apply subseq_skip. apply IH.
Qed.

(** A task line is never an ordinary line. *)
Lemma task_line_role (cur : open_block) (l : line) :
  fst (is_task_line l) = true -> fst (classify cur l) <> Ordinary.
Proof.
  intros Ht. unfold classify, top_role. rewrite Ht.
  destruct cur as [[t c]|]; [destruct (is_detail t l)|]; discriminate.
Qed.

Lemma markers_split (cur : open_block) (ls : list line) :
  count is_marker (keep in_pending (tagged cur ls))
  + count is_marker (keep in_archived (tagged cur ls))
  = count is_marker ls.
Proof.
  revert cur. induction ls as [|l ls IH]; intros cur; [reflexivity|].
  cbn [tagged]. rewrite !keep_cons, (count_cons is_marker l ls). cbn [fst].
  specialize (IH (snd (classify cur l))).
  pose proof (task_line_role cur l) as Hrole.
  assert (Hone : in_pending (l, fst (classify cur l)) = true
                 /\ in_archived (l, fst (classify cur l)) = true
                 /\ is_marker l = false
                 \/ in_pending (l, fst (classify cur l))
                    = negb (in_archived (l, fst (classify cur l)))).
  { unfold in_pending, in_archived, is_marker. cbn [snd].
    destruct (fst (classify cur l)) as [|c|c].
    - left. repeat split.
      destruct (fst (is_task_line l)); [exfalso; apply Hrole; reflexivity | reflexivity].
    - right. reflexivity.
    - right. reflexivity. }
  destruct Hone as [(-> & -> & Hm)| ->].
  - rewrite !count_cons, Hm. lia.
  - destruct (in_archived (l, fst (classify cur l))); cbn [negb];
      rewrite count_cons; lia.
Qed.

Lemma every_line_in_a_list (cur : open_block) (ls : list line) (l : line) :
  In l ls ->
  In l (keep in_pending (tagged cur ls)) \/ In l (keep in_archived (tagged cur ls)).
Proof.
  revert cur. induction ls as [|x ls IH]; intros cur Hin; [destruct Hin|].
  cbn [tagged]. rewrite !keep_cons. cbn [fst].
  destruct Hin as [->|Hin].
  - unfold in_pending, in_archived. cbn [snd].
    destruct (fst (classify cur l)) as [|c|c]; try destruct c; cbn [negb];
      (left; left; reflexivity) || (right; left; reflexivity).
  - destruct (IH (snd (classify cur x)) Hin) as [H|H]; [left | right];
      match goal with |- In _ (if ?b then _ else _) => destruct b end;
      try right; exact H.
Qed.

(** X4: [process_section] loses no line and keeps the order: each of its
    two lists is the body with some lines left out, every line of the body
    is in one of them, and every task marker line is in one of them only
    (the markers of the two lists are as many as the markers of the
    body). *)
Theorem process_section_partition (header : line) (lines : list line) :
  let pending := fst (fst (process_section header lines)) in
  let archived := snd (fst (process_section header lines)) in
  subseq pending lines
  /\ subseq archived lines
  /\ (forall l, In l lines -> In l pending \/ In l archived)
  /\ count is_marker pending + count is_marker archived = count is_marker lines.
Proof.
  rewrite process_section_tagged. cbn [fst snd].
  split; [apply keep_subseq|]. split; [apply keep_subseq|].
  split; [intros l; apply every_line_in_a_list | apply markers_split].
Qed.

Lemma filter_shorter (f : line * role -> bool) (tl : list (line * role)) :
  existsb (fun x => negb (f x)) tl = true ->
  length (filter f tl) < length tl.
Proof.
  induction tl as [|x tl IH]; simpl; [discriminate|].
  pose proof (filter_length_le f tl) as Hle.
  destruct (f x); simpl; [intros H; apply IH in H; lia | intros _; lia].
Qed.

Lemma existsb_weaken (f g : line * role -> bool) (tl : list (line * role)) :
  (forall x, f x = true -> g x = true) ->
  existsb f tl = true -> existsb g tl = true.
Proof.
  intros Hfg H. apply existsb_exists in H. destruct H as [x [Hin Hx]].
  apply existsb_exists. exists x. split; [exact Hin | exact (Hfg x Hx)].
Qed.

Lemma length_tagged (cur : open_block) (ls : list line) :
  length (tagged cur ls) = length ls.
Proof. rewrite <- (map_fst_tagged cur ls) at 2. symmetry. apply length_map. Qed.

(** X5: [has_pending] is false exactly when [archived_lines] is the whole
    body; when it is true, [archived_lines] is shorter than the body. *)
Theorem has_pending_iff_archived_whole (header : line) (lines : list line) :
  let archived := snd (fst (process_section header lines)) in
  let has_pending := snd (process_section header lines) in
  (has_pending = false <-> archived = lines)
  /\ (has_pending = true -> length archived < length lines).
Proof.
  rewrite process_section_tagged. cbn [fst snd].
  assert (Hlt : existsb (is_head false) (tagged None lines) = true ->
                length (keep in_archived (tagged None lines)) < length lines).
  { intros H. unfold keep. rewrite length_map, <- (length_tagged None lines).
    apply filter_shorter. revert H. apply existsb_weaken.
    intros [l r]. unfold is_head, in_archived. simpl.
    destruct r as [|c|c]; try discriminate. destruct c; [discriminate | reflexivity]. }
  split; [|exact Hlt]. split.
  - apply (archived_whole None lines I).
  - intros E. destruct (existsb (is_head false) (tagged None lines)); [|reflexivity].
    specialize (Hlt eq_refl). rewrite E in Hlt. lia.
Qed.

Lemma pending_whole (cur : open_block) (ls : list line) :
  match cur with Some (_, true) => False | _ => True end ->
  existsb (is_head true) (tagged cur ls) = false ->
  keep in_pending (tagged cur ls) = ls.
Proof.
  revert cur. induction ls as [|l ls IH]; intros cur Hcur Hex; [reflexivity|].
  simpl in Hex. apply orb_false_iff in Hex. destruct Hex as [Hl Hex].
  cbn [tagged]. rewrite keep_cons. cbn [fst].
  assert (Hstep : in_pending (l, fst (classify cur l)) = true
                  /\ match snd (classify cur l) with
                     | Some (_, true) => False
                     | _ => True
                     end).
  { unfold is_head in Hl. simpl in Hl. unfold in_pending. simpl snd.
    unfold classify, top_role in *.
    destruct cur as [[t c]|].
    - destruct (is_detail t l).
      + simpl. destruct c; [destruct Hcur | split; [reflexivity | exact I]].
      + destruct (fst (is_task_line l)); simpl in *; [|split; [reflexivity | exact I]].
        destruct (snd (is_task_line l)); [discriminate | split; [reflexivity | exact I]].
    - destruct (fst (is_task_line l)); simpl in *; [|split; [reflexivity | exact I]].
      destruct (snd (is_task_line l)); [discriminate | split; [reflexivity | exact I]]. }
  destruct Hstep as [Hin Hnext]. rewrite Hin. f_equal. apply IH; assumption.
Qed.

(** X6: the local [has_completed] of [process_section] is false exactly
    when [pending_lines] is the whole body: a section without a completed
    block loses nothing when it stays in the pending file. *)
Theorem has_completed_iff_pending_whole (lines : list line) :
  let st := process_loop lines 0 (mk_section_state [] [] false false) in
  (has_completed st = false <-> pending_lines st = lines)
  /\ (has_completed st = true -> length (pending_lines st) < length lines).
Proof.
  rewrite process_loop_tagged. cbn [absorb has_completed pending_lines skipn app orb].
  assert (Hlt : existsb (is_head true) (tagged None lines) = true ->
                length (keep in_pending (tagged None lines)) < length lines).
  { intros H. unfold keep. rewrite length_map, <- (length_tagged None lines).
    apply filter_shorter. revert H. apply existsb_weaken.
    intros [l r]. unfold is_head, in_pending. simpl.
    destruct r as [|c|c]; try discriminate. destruct c; [reflexivity | discriminate]. }
  split; [|exact Hlt]. split.
  - apply (pending_whole None lines I).
  - intros E. destruct (existsb (is_head true) (tagged None lines)); [|reflexivity].
    specialize (Hlt eq_refl). rewrite E in Hlt. lia.
Qed.

Lemma unindented_is_head (cur : open_block) (l : line) :
  fst (is_task_line l) = true -> get_indent l = 0 ->
  classify cur l = top_role l.
Proof.
  intros Ht Hi. destruct cur as [[t c]|]; [|reflexivity].
  unfold classify, is_detail. rewrite Hi.
  destruct (is_blank l) eqn:Hb.
  - rewrite (blank_not_task l Hb) in Ht. discriminate.
  - reflexivity.
Qed.

Lemma unindented_head_found (b : bool) (cur : open_block) (ls : list line) (l : line) :
  In l ls -> is_task_line l = (true, b) -> get_indent l = 0 ->
  In (l, Head b) (tagged cur ls).
Proof.
  intros Hin Ht Hi. revert cur.
  induction ls as [|x ls IH]; intros cur; [destruct Hin|].
  cbn [tagged]. destruct Hin as [->|Hin]; [left | right; apply IH; exact Hin].
  rewrite (unindented_is_head cur l); [|rewrite Ht; reflexivity | exact Hi].
  unfold top_role. rewrite Ht. reflexivity.
Qed.

(** X7: a section with a "- [ ]" line that has no indentation has
    [has_pending] true, and that line is in [pending_lines]: such a
    section always stays in the pending file. *)
Theorem unindented_pending_task (header : line) (lines : list line) (l : line) :
  In l lines -> is_task_line l = (true, false) -> get_indent l = 0 ->
  snd (process_section header lines) = true
  /\ In l (fst (fst (process_section header lines)))
  /\ to_pending (header, lines) = header :: fst (fst (process_section header lines))
  /\ to_archived (header, lines) = [].
Proof.
  intros Hin Ht Hi.
  pose proof (unindented_head_found false None lines l Hin Ht Hi) as Hhead.
  assert (Hex : existsb (is_head false) (tagged None lines) = true).
  { apply existsb_exists. exists (l, Head false). split; [exact Hhead | reflexivity]. }
  rewrite to_pending_tagged, to_archived_tagged, process_section_tagged.
  cbn [fst snd]. rewrite Hex. repeat split.
  unfold keep. change l with (fst (l, Head false)). apply in_map.
  apply filter_In. split; [exact Hhead | reflexivity].
Qed.

(** The theorem on the mixed section. *)
Lemma unindented_pending_task_witness :
  In (lit "- [ ] todo1") [lit "- [ ] todo1"; lit "- [x] done1"; lit "  detail1"]
  /\ is_task_line (lit "- [ ] todo1") = (true, false)
  /\ get_indent (lit "- [ ] todo1") = 0
  /\ snd (process_section (lit "## A")
            [lit "- [ ] todo1"; lit "- [x] done1"; lit "  detail1"]) = true.
Proof.
  split; [left; reflexivity|]. split; [reflexivity|]. split; [reflexivity|].
  apply (unindented_pending_task (lit "## A")
           [lit "- [ ] todo1"; lit "- [x] done1"; lit "  detail1"]
           (lit "- [ ] todo1"));
    [left; reflexivity | reflexivity | reflexivity].
Defined.

Lemma existsb_filter (f g : line * role -> bool) (tl : list (line * role)) :
  (forall x, g x = true -> f x = true) ->
  existsb g (filter f tl) = existsb g tl.
Proof.
  intros Hgf. induction tl as [|x tl IH]; [reflexivity|].
  simpl. destruct (f x) eqn:Ef; simpl; rewrite IH; [reflexivity|].
  destruct (g x) eqn:Eg; [|reflexivity].
  rewrite (Hgf x Eg) in Ef. discriminate.
Qed.

Lemma filter_filter (f : line * role -> bool) (tl : list (line * role)) :
  filter f (filter f tl) = filter f tl.
Proof.
  induction tl as [|x tl IH]; [reflexivity|].
  simpl. destruct (f x) eqn:E; simpl; rewrite ?E, IH; reflexivity.
Qed.

Lemma pending_head_is_kept (x : line * role) :
  is_head false x = true -> in_pending x = true.
Proof.
  destruct x as [l r]. unfold is_head, in_pending. simpl.
  destruct r as [|c|c]; try discriminate. destruct c; [discriminate | reflexivity].
Qed.

(** X8: leaving out the completed blocks does not change how the other
    lines are read: [process_section] on its own [pending_lines] returns
    them again as [pending_lines], with the same [has_pending], and finds
    no completed block. *)
Theorem process_section_on_pending_lines (header : line) (lines : list line) :
  let pending := fst (fst (process_section header lines)) in
  fst (fst (process_section header pending)) = pending
  /\ snd (process_section header pending) = snd (process_section header lines)
  /\ has_completed
       (process_loop pending 0 (mk_section_state [] [] false false)) = false.
Proof.
  cbv zeta. rewrite process_loop_tagged.
  rewrite !process_section_tagged. cbn [fst snd skipn absorb has_completed orb].
  rewrite (rescan_pending lines None None eq_refl).
  split; [|split].
  - unfold keep. rewrite filter_filter. reflexivity.
  - apply existsb_filter. apply pending_head_is_kept.
  - apply no_completed_head_kept.
Qed.

(** ** Blank lines at the end of a block *)

Lemma run_length_all (t : nat) (ls : list line) :
  (forall k, k < length ls -> is_detail t (get ls k) = true) ->
  run_length t ls = length ls.
Proof.
  induction ls as [|l ls IH]; intros H; [reflexivity|].
  simpl. pose proof (H 0 (Nat.lt_0_succ _)) as H0. unfold get in H0. simpl in H0.
  rewrite H0. f_equal. apply IH. intros k Hk.
  apply (H (S k)). simpl. lia.
Qed.

(** X9: blank lines never end a block: when only blank lines follow a
    task line, its block runs to the end of the list and takes them all. *)
Theorem trailing_blank_lines_absorbed (lines : list line) (i : nat) :
  i < length lines ->
  (forall k, i < k < length lines -> is_blank (get lines k) = true) ->
  collect_block lines (get_indent (get lines i)) [get lines i] (i + 1)
  = (skipn i lines, length lines).
Proof.
  intros Hi Hblank. rewrite collect_block_run.
  assert (Hrun : run_length (get_indent (get lines i)) (skipn (i + 1) lines)
                 = length (skipn (i + 1) lines)).
  { apply run_length_all. intros k Hk. rewrite length_skipn in Hk.
    rewrite get_skipn. unfold is_detail. rewrite Hblank; [reflexivity | lia]. }
  rewrite Hrun, firstn_all, length_skipn, (skipn_get lines i Hi).
  f_equal. lia.
Qed.

(** The theorem on a task followed by two blank lines. *)
Lemma trailing_blank_lines_absorbed_witness :
  1 < length [lit "text"; lit "- [x] done"; lit ""; lit "  "]
  /\ (forall k, 1 < k < length [lit "text"; lit "- [x] done"; lit ""; lit "  "] ->
        is_blank (get [lit "text"; lit "- [x] done"; lit ""; lit "  "] k) = true)
  /\ collect_block [lit "text"; lit "- [x] done"; lit ""; lit "  "]
       (get_indent (get [lit "text"; lit "- [x] done"; lit ""; lit "  "] 1))
       [get [lit "text"; lit "- [x] done"; lit ""; lit "  "] 1] (1 + 1)
     = (skipn 1 [lit "text"; lit "- [x] done"; lit ""; lit "  "],
        length [lit "text"; lit "- [x] done"; lit ""; lit "  "]).
Proof.
  assert (H : forall k, 1 < k < length [lit "text"; lit "- [x] done"; lit ""; lit "  "] ->
        is_blank (get [lit "text"; lit "- [x] done"; lit ""; lit "  "] k) = true).
  { intros k Hk. simpl in Hk.
    destruct k as [|[|[|[|k]]]]; try lia; reflexivity. }
  split; [simpl; lia|]. split; [exact H|].
  apply (trailing_blank_lines_absorbed
           [lit "text"; lit "- [x] done"; lit ""; lit "  "] 1); [simpl; lia | exact H].
Defined.

(** ** Blank-line collapse: what it keeps *)

Lemma cleaned_cleaned (prev_empty prev_empty' : bool) (ls : list line) :
  (prev_empty' = true -> prev_empty = true) ->
  cleaned prev_empty' (cleaned prev_empty ls) = cleaned prev_empty ls.
Proof.
  revert prev_empty prev_empty'.
  induction ls as [|l ls IH]; intros pe pe' Himp; [reflexivity|].
  simpl. destruct (is_blank l && pe) eqn:E.
  - apply IH. exact Himp.
  - simpl. assert (E' : is_blank l && pe' = false).
    { destruct (is_blank l); [|reflexivity]. simpl in *.
      destruct pe'; [rewrite (Himp eq_refl) in E; discriminate | reflexivity]. }
    rewrite E'. f_equal. apply IH. intros H. exact H.
Qed.

Lemma cleaned_id (prev_empty : bool) (ls : list line) :
  no_blank_run ls ->
  (prev_empty = true ->
   match ls with [] => True | l :: _ => is_blank l = false end) ->
  cleaned prev_empty ls = ls.
Proof.
  revert prev_empty. induction ls as [|l ls IH]; intros pe Hrun Hhead; [reflexivity|].
  simpl. destruct Hrun as [Hfirst Hrun].
  assert (E : is_blank l && pe = false).
  { destruct pe; [rewrite (Hhead eq_refl); reflexivity | apply andb_false_r]. }
  rewrite E. f_equal. apply IH; [exact Hrun|].
  intros Hb. destruct ls as [|l' ls]; [exact I|].
  destruct (is_blank l') eqn:Hb'; [|reflexivity].
  exfalso. apply Hfirst. split; [exact Hb | reflexivity].
Qed.

Lemma filter_cleaned (p : line -> bool) (prev_empty : bool) (ls : list line) :
  (forall l, p l = true -> is_blank l = false) ->
  filter p (cleaned prev_empty ls) = filter p ls.
Proof.
  intros Hp. revert prev_empty.
  induction ls as [|l ls IH]; intros pe; [reflexivity|].
  simpl. destruct (is_blank l && pe) eqn:E.
  - apply andb_true_iff in E. destruct E as [Hb _].
    destruct (p l) eqn:Ep; [rewrite (Hp l Ep) in Hb; discriminate | apply IH].
  - simpl. destruct (p l); [f_equal|]; apply IH.
Qed.

Lemma cleaned_subseq (prev_empty : bool) (ls : list line) :
  subseq (cleaned prev_empty ls) ls.
Proof.
  revert prev_empty. induction ls as [|l ls IH]; intros pe; [constructor|].
  simpl. destruct (is_blank l && pe).
  - apply subseq_skip. apply IH.
  - apply subseq_keep. apply IH.
Qed.

(** X10: [clean_empty_lines] is idempotent, and it returns its argument
    unchanged exactly when the argument has no two blank lines in a
    row. *)
Theorem clean_empty_lines_fixed_point (lines : list line) :
  clean_empty_lines (clean_empty_lines lines) = clean_empty_lines lines
  /\ (clean_empty_lines lines = lines <-> no_blank_run lines).
Proof.
  rewrite !clean_empty_lines_cleaned. split.
  - apply cleaned_cleaned. intros H. exact H.
  - split.
    + intros E. rewrite <- E. apply cleaned_no_blank_run.
    + intros H. apply cleaned_id; [exact H | discriminate].
Qed.

(** X11: [clean_empty_lines] removes blank lines only and keeps the order:
    its result is its argument with some lines left out, the lines that
    are not blank are the same before and after, and the first line is
    always kept. *)
Theorem clean_empty_lines_keeps_text (lines : list line) :
  subseq (clean_empty_lines lines) lines
  /\ filter (fun l => negb (is_blank l)) (clean_empty_lines lines)
     = filter (fun l => negb (is_blank l)) lines
  /\ hd_error (clean_empty_lines lines) = hd_error lines
  /\ length (clean_empty_lines lines) <= length lines.
Proof.
  rewrite !clean_empty_lines_cleaned.
  split; [apply cleaned_subseq|]. split.
  - apply filter_cleaned. intros l H. apply negb_true_iff in H. exact H.
  - split.
    + destruct lines as [|l ls]; [reflexivity|].
      simpl. rewrite andb_false_r. reflexivity.
    + apply subseq_length. apply cleaned_subseq.
Qed.

(** ** Texts and lines: round trips *)

Lemma join_split (content : str) : join_lines (split_lines content) = content.
Proof.
  induction content as [|c content IH]; [reflexivity|].
  simpl. destruct (c =? newline)%N eqn:E.
  - apply N.eqb_eq in E. subst c.
    pose proof (split_lines_nonempty content) as Hne.
    destruct (split_lines content) as [|l ls]; [congruence|].
    change (join_lines ([] :: l :: ls)) with ([] ++ newline :: join_lines (l :: ls)).
    rewrite IH. reflexivity.
  - destruct (split_lines content) as [|l ls] eqn:Es.
    + exfalso. exact (split_lines_nonempty content Es).
    + destruct ls as [|l' ls].
      * simpl in *. rewrite IH. reflexivity.
      * change (join_lines ((c :: l) :: l' :: ls))
          with (c :: (l ++ newline :: join_lines (l' :: ls))).
        change (join_lines (l :: l' :: ls))
          with (l ++ newline :: join_lines (l' :: ls)) in IH.
        rewrite IH. reflexivity.
Qed.

(** X12: splitting a text at its newlines and joining the lines with
    newlines are inverse to each other: every text is the join of its
    lines, which are never none and contain no newline; and a list of
    lines that is not empty and has no newline in a line is read back from
    its join. *)
Theorem lines_text_round_trip :
  (forall content,
     join_lines (split_lines content) = content
     /\ split_lines content <> []
     /\ Forall no_newline (split_lines content))
  /\ (forall lines, lines <> [] -> Forall no_newline lines ->
        split_lines (join_lines lines) = lines).
Proof.
  split.
  - intros content. split; [apply join_split|].
    split; [apply split_lines_nonempty | apply split_lines_no_newline].
  - apply split_join.
Qed.

(** ** The report of a run *)

Lemma flush_section_counts (st : main_state) :
  sections_pending (flush_section st) = sections_pending st + open_count true st []
  /\ sections_archived (flush_section st) = sections_archived st + open_count false st [].
Proof.
  unfold flush_section, open_count, section_has_pending.
  rewrite app_nil_r. cbn [fst snd].
  destruct (is_empty_str (current_header st)); [split; lia|].
  destruct (process_section (current_header st) (current_lines st))
    as [[pending archived] hp].
  destruct hp; simpl; split; lia.
Qed.

Lemma main_loop_counts (lines : list line) (st : main_state) :
  sections_pending (flush_section (fold_left main_step lines st)) =
    sections_pending st + open_count true st (fst (sections_of lines))
    + length (filter section_has_pending (snd (sections_of lines)))
  /\ sections_archived (flush_section (fold_left main_step lines st)) =
    sections_archived st + open_count false st (fst (sections_of lines))
    + length (filter (fun s => negb (section_has_pending s)) (snd (sections_of lines))).
Proof.
  revert st. induction lines as [|l lines IH]; intros st.
  - simpl. rewrite !Nat.add_0_r. apply flush_section_counts.
  - simpl fold_left. simpl sections_of.
    destruct (sections_of lines) as [body secs] eqn:E.
    specialize (IH (main_step st l)). simpl fst in IH. simpl snd in IH.
    destruct IH as [IHp IHa]. rewrite IHp, IHa. clear IHp IHa.
    unfold main_step. fold (is_h2 l). fold (is_h1 l).
    destruct (is_h2 l) eqn:H2.
    + destruct (flush_section_counts st) as [Fp Fa].
      unfold open_count at 1 3. cbn [current_header current_lines
        sections_pending sections_archived fst snd app filter].
      rewrite (is_h2_nonempty l H2), Fp, Fa.
      destruct (section_has_pending (l, body)); simpl; split; lia.
    + destruct (is_h1 l) eqn:H1; simpl.
      * split; reflexivity.
      * unfold open_count. simpl. rewrite <- !app_assoc. split; reflexivity.
Qed.

Lemma filter_partition_length (f : line * list line -> bool)
    (secs : list (line * list line)) :
  length (filter f secs) + length (filter (fun s => negb (f s)) secs) = length secs.
Proof.
  induction secs as [|s secs IH]; [reflexivity|].
  simpl. destruct (f s); simpl; lia.
Qed.

(** X13: the section counts that a run prints are the number of sections
    with [has_pending] true and the number with it false; together they
    are the number of lines that start with "## ".  The line counts it
    prints are the numbers of lines of the two texts, each at least the
    four lines of its preamble. *)
Theorem report_counts (content : str) :
  let secs := snd (sections_of (split_lines content)) in
  fst (pending_report (main content)) = length (filter section_has_pending secs)
  /\ fst (archived_report (main content))
     = length (filter (fun s => negb (section_has_pending s)) secs)
  /\ fst (pending_report (main content)) + fst (archived_report (main content))
     = count is_h2 (split_lines content)
  /\ snd (pending_report (main content))
     = length (split_lines (pending_text (main content)))
  /\ snd (archived_report (main content))
     = length (split_lines (archived_text (main content)))
  /\ 4 <= snd (pending_report (main content))
  /\ 4 <= snd (archived_report (main content)).
Proof.
  intros secs.
  destruct (main_loop_counts (split_lines content) main_init) as [Cp Ca].
  fold (assemble content) in Cp, Ca. fold secs in Cp, Ca.
  destruct (text_lines content) as [Tp Ta].
  cbn [main pending_report archived_report fst snd].
  rewrite Cp, Ca, Tp, Ta. cbn [main_init sections_pending sections_archived
    open_count current_header is_empty_str].
  split; [reflexivity|]. split; [reflexivity|]. split.
  - simpl. rewrite filter_partition_length. unfold count.
    rewrite <- sections_of_headers. unfold secs. symmetry. apply length_map.
  - split; [reflexivity|]. split; [reflexivity|].
    unfold pending_final, archived_final. rewrite !clean_empty_lines_cleaned.
    destruct (assemble_sections content) as [-> ->].
    split; simpl; lia.
Qed.

(** ** Documents without a header, title lines, lines before the first
       header *)

Lemma no_header_no_section (lines : list line) :
  (forall l, In l lines -> is_h2 l = false) -> snd (sections_of lines) = [].
Proof.
  intros H.
  assert (Hf : filter is_h2 lines = []).
  { induction lines as [|l lines IH]; [reflexivity|].
    simpl. rewrite (H l (or_introl eq_refl)). apply IH.
    intros x Hx. apply H. right. exact Hx. }
  pose proof (sections_of_headers lines) as Hh. rewrite Hf in Hh. destruct (snd (sections_of lines)); [reflexivity | discriminate].
Qed.

(** X14: a document without a line that starts with "## ", the empty
    document too, is dropped whole: both texts are their preambles alone
    and the report counts no section and four lines for each. *)
Theorem document_without_header (content : str) :
  (forall l, In l (split_lines content) -> is_h2 l = false) ->
  pending_text (main content) = join_lines pending_preamble
  /\ archived_text (main content) = join_lines archived_preamble
  /\ pending_report (main content) = (0, 4)
  /\ archived_report (main content) = (0, 4).
Proof.
  intros H. pose proof (no_header_no_section _ H) as Hs.
  destruct (main_loop_counts (split_lines content) main_init) as [Cp Ca].
  fold (assemble content) in Cp, Ca. rewrite Hs in Cp, Ca.
  destruct (assemble_sections content) as [Hp Ha]. rewrite Hs in Hp, Ha.
  simpl in Hp, Ha.
  assert (Fp : pending_final content = pending_preamble).
  { unfold pending_final. rewrite Hp. vm_compute. reflexivity. }
  assert (Fa : archived_final content = archived_preamble).
  { unfold archived_final. rewrite Ha. vm_compute. reflexivity. }
  cbn [main pending_text archived_text pending_report archived_report].
  rewrite Fp, Fa, Cp, Ca. repeat split.
Qed.

(** The theorem on the empty document and on a document of plain text. *)
Lemma document_without_header_witness :
  (forall l, In l (split_lines (join_lines [lit "# Tasks"; lit "- [ ] todo"])) ->
     is_h2 l = false)
  /\ pending_text (main (join_lines [lit "# Tasks"; lit "- [ ] todo"]))
     = join_lines pending_preamble
  /\ pending_text (main []) = join_lines pending_preamble.
Proof.
  assert (H : forall l, In l (split_lines (join_lines [lit "# Tasks"; lit "- [ ] todo"])) ->
     is_h2 l = false).
  { intros l Hl. vm_compute in Hl. destruct Hl as [<-|[<-|[]]]; reflexivity. }
  split; [exact H|]. split.
  - apply (document_without_header (join_lines [lit "# Tasks"; lit "- [ ] todo"]) H).
  - apply (document_without_header []). intros l [<-|[]]. reflexivity.
Defined.

Lemma h1_not_h2 (l : line) : is_h1 l = true -> is_h2 l = false.
Proof.
  intros H. apply startswith_begins in H. destruct H as [rest ->]. reflexivity.
Qed.

(** X15: a line that starts with "# " is ignored wherever it stands, in a
    section or in a task block too: the loop ends in the same state as on
    the lines without those lines. *)
Theorem title_lines_ignored (lines : list line) (st : main_state) :
  fold_left main_step lines st
  = fold_left main_step (filter (fun l => negb (is_h1 l)) lines) st
  /\ assemble_lines lines
     = assemble_lines (filter (fun l => negb (is_h1 l)) lines).
Proof.
  assert (H : forall ls s, fold_left main_step ls s
              = fold_left main_step (filter (fun l => negb (is_h1 l)) ls) s).
  { induction ls as [|l ls IH]; intros s; [reflexivity|].
    simpl. destruct (is_h1 l) eqn:H1; simpl.
    - rewrite <- IH. f_equal. unfold main_step.
      fold (is_h2 l). fold (is_h1 l). rewrite (h1_not_h2 l H1), H1. reflexivity.
    - apply IH. }
  split; [apply H|]. unfold assemble_lines. rewrite <- H. reflexivity.
Qed.

Lemma sections_of_prefix (pre rest : list line) :
  (forall l, In l pre -> is_h2 l = false) ->
  snd (sections_of (pre ++ rest)) = snd (sections_of rest).
Proof.
  induction pre as [|l pre IH]; intros H; [reflexivity|].
  simpl. specialize (IH (fun x Hx => H x (or_intror Hx))).
  destruct (sections_of (pre ++ rest)) as [body secs]. simpl in IH.
  rewrite (H l (or_introl eq_refl)). destruct (is_h1 l); exact IH.
Qed.

(** X16: the lines before the first line that starts with "## " are
    dropped: with or without them the buffers and the counters are the
    same. *)
Theorem lines_before_first_header_dropped (pre rest : list line) :
  (forall l, In l pre -> is_h2 l = false) ->
  pending_output (assemble_lines (pre ++ rest)) = pending_output (assemble_lines rest)
  /\ archived_output (assemble_lines (pre ++ rest)) = archived_output (assemble_lines rest)
  /\ sections_pending (assemble_lines (pre ++ rest)) = sections_pending (assemble_lines rest)
  /\ sections_archived (assemble_lines (pre ++ rest)) = sections_archived (assemble_lines rest).
Proof.
  intros H. unfold assemble_lines.
  destruct (main_loop_sections (pre ++ rest) main_init) as [P1 A1].
  destruct (main_loop_sections rest main_init) as [P2 A2].
  destruct (main_loop_counts (pre ++ rest) main_init) as [Cp1 Ca1].
  destruct (main_loop_counts rest main_init) as [Cp2 Ca2].
  rewrite P1, A1, P2, A2, Cp1, Ca1, Cp2, Ca2, (sections_of_prefix pre rest H).
  repeat split.
Qed.

(** The theorem on notes put before a section. *)
Lemma lines_before_first_header_dropped_witness :
  (forall l, In l [lit "notes"; lit "- [ ] lost"] -> is_h2 l = false)
  /\ pending_output (assemble_lines ([lit "notes"; lit "- [ ] lost"] ++ [lit "## A"; lit "- [ ] t"]))
     = pending_output (assemble_lines [lit "## A"; lit "- [ ] t"]).
Proof.
  assert (H : forall l, In l [lit "notes"; lit "- [ ] lost"] -> is_h2 l = false).
  { intros l [<-|[<-|[]]]; reflexivity. }
  split; [exact H|].
  apply (lines_before_first_header_dropped [lit "notes"; lit "- [ ] lost"]
           [lit "## A"; lit "- [ ] t"] H).
Defined.

(** ** The lines of the outputs and the lines of the document *)

Lemma cleaned_app (prev_empty : bool) (a b : list line) :
  cleaned prev_empty (a ++ b)
  = cleaned prev_empty a ++ cleaned (blank_end prev_empty a) b.
Proof.
  revert prev_empty. induction a as [|l a IH]; intros pe; [reflexivity|].
  simpl. unfold blank_end. simpl. fold (blank_end (is_blank l) a).
  destruct (is_blank l && pe) eqn:E.
  - apply andb_true_iff in E. destruct E as [Hb Hpe]. subst pe.
    rewrite IH, Hb. reflexivity.
  - simpl. rewrite IH. reflexivity.
Qed.

(** The lines of each text: its preamble, and what is left of the
    sections flushed to it. *)
Lemma final_shape (content : str) :
  pending_final content =
    pending_preamble
    ++ cleaned true (flat_map to_pending (snd (sections_of (split_lines content))))
  /\ archived_final content =
    archived_preamble
    ++ cleaned true (flat_map to_archived (snd (sections_of (split_lines content)))).
Proof.
  unfold pending_final, archived_final. rewrite !clean_empty_lines_cleaned.
  destruct (assemble_sections content) as [-> ->].
  rewrite !cleaned_app. split; reflexivity.
Qed.

Lemma sections_of_subseq (lines : list line) :
  subseq (flat_map (fun s => fst s :: snd s) (snd (sections_of lines))) lines
  /\ subseq (fst (sections_of lines)
             ++ flat_map (fun s => fst s :: snd s) (snd (sections_of lines)))
            lines.
Proof.
  induction lines as [|l lines IH]; [split; constructor|].
  simpl sections_of. destruct (sections_of lines) as [body secs].
  cbn [fst snd] in IH. destruct IH as [IH1 IH2].
  destruct (is_h2 l); cbn [fst snd flat_map app].
  - split; apply subseq_keep; exact IH2.
  - destruct (is_h1 l); cbn [fst snd app].
    + split; apply subseq_skip; assumption.
    + split; [apply subseq_skip; exact IH1 | apply subseq_keep; exact IH2].
Qed.

Lemma to_pending_subseq (s : line * list line) :
  subseq (to_pending s) (fst s :: snd s).
Proof.
  rewrite to_pending_tagged.
  destruct (existsb (is_head false) (tagged None (snd s))).
  - apply subseq_keep. apply keep_subseq.
  - apply subseq_nil_l.
Qed.

Lemma to_archived_subseq (s : line * list line) :
  subseq (to_archived s) (fst s :: snd s).
Proof.
  rewrite to_archived_tagged.
  destruct (existsb (is_head false) (tagged None (snd s))).
  - apply subseq_nil_l.
  - apply subseq_keep. apply keep_subseq.
Qed.

Lemma flat_map_subseq (f g : line * list line -> list line)
    (secs : list (line * list line)) :
  (forall s, subseq (f s) (g s)) -> subseq (flat_map f secs) (flat_map g secs).
Proof.
  intros H. induction secs as [|s secs IH]; [constructor|].
  simpl. apply subseq_app; [apply H | exact IH].
Qed.

Lemma section_lines_not_title (lines : list line) (l : line) :
  In l (flat_map (fun s => fst s :: snd s) (snd (sections_of lines))) ->
  is_h1 l = false.
Proof.
  intros Hin. apply in_flat_map in Hin. destruct Hin as [s [Hs Hl]].
  destruct (sections_of_well_formed lines) as [_ Hwf].
  rewrite Forall_forall in Hwf. destruct (Hwf s Hs) as [Hh Hbody].
  destruct Hl as [<-|Hl].
  - destruct (is_h1 (fst s)) eqn:E; [|reflexivity].
    rewrite (h1_not_h2 _ E) in Hh. discriminate.
  - rewrite Forall_forall in Hbody. apply (Hbody l Hl).
Qed.

(** X17: a run invents and reorders nothing: each text is its preamble
    followed by lines of the document in their order, with some left out,
    and none of these lines starts with "# ". *)
Theorem outputs_from_source (content : str) :
  exists kept_pending kept_archived,
    split_lines (pending_text (main content)) = pending_preamble ++ kept_pending
    /\ split_lines (archived_text (main content)) = archived_preamble ++ kept_archived
    /\ subseq kept_pending (split_lines content)
    /\ subseq kept_archived (split_lines content)
    /\ Forall (fun l => is_h1 l = false) (kept_pending ++ kept_archived).
Proof.
  destruct (text_lines content) as [-> ->].
  destruct (final_shape content) as [-> ->].
  set (secs := snd (sections_of (split_lines content))).
  assert (Sp : subseq (cleaned true (flat_map to_pending secs))
                 (flat_map (fun s => fst s :: snd s) secs)).
  { eapply subseq_trans; [apply cleaned_subseq|].
    apply flat_map_subseq. apply to_pending_subseq. }
  assert (Sa : subseq (cleaned true (flat_map to_archived secs))
                 (flat_map (fun s => fst s :: snd s) secs)).
  { eapply subseq_trans; [apply cleaned_subseq|].
    apply flat_map_subseq. apply to_archived_subseq. }
  destruct (sections_of_subseq (split_lines content)) as [Hs _]. fold secs in Hs.
  eexists _, _. split; [reflexivity|]. split; [reflexivity|].
  split; [exact (subseq_trans _ _ _ Sp Hs)|].
  split; [exact (subseq_trans _ _ _ Sa Hs)|].
  apply Forall_forall. intros l Hl.
  apply (section_lines_not_title (split_lines content)). fold secs.
  apply in_app_or in Hl. destruct Hl as [Hl|Hl].
  - exact (subseq_incl _ _ l Sp Hl).
  - exact (subseq_incl _ _ l Sa Hl).
Qed.

Lemma count_subseq (p : line -> bool) (a b : list line) :
  subseq a b -> count p a <= count p b.
Proof.
  intros H. induction H as [|x a b H IH|x a b H IH]; [apply Nat.le_refl| |].
  - rewrite count_cons. lia.
  - rewrite !count_cons. lia.
Qed.

Lemma count_flat_map_le (p : line -> bool) (f g h : line * list line -> list line)
    (secs : list (line * list line)) :
  (forall s, count p (f s) + count p (g s) <= count p (h s)) ->
  count p (flat_map f secs) + count p (flat_map g secs) <= count p (flat_map h secs).
Proof.
  intros H. induction secs as [|s secs IH]; [apply Nat.le_refl|].
  simpl. rewrite !count_app. specialize (H s). lia.
Qed.

Lemma section_once (p : line -> bool) (s : line * list line) :
  count p (to_pending s) + count p (to_archived s) <= count p (fst s :: snd s).
Proof.
  rewrite to_pending_tagged, to_archived_tagged.
  destruct (existsb (is_head false) (tagged None (snd s)));
    change (count p []) with 0; rewrite !count_cons.
  - pose proof (count_keep p in_pending None (snd s)). lia.
  - pose proof (count_keep p in_archived None (snd s)). lia.
Qed.

(** X18: no line of the document is written twice: for every property of
    lines, the lines of the two texts that have it are at most those of
    the two preambles and of the document that have it.  So the two texts
    have together at most eight lines more than the document. *)
Theorem no_line_duplicated (content : str) (p : line -> bool) :
  count p (split_lines (pending_text (main content)))
  + count p (split_lines (archived_text (main content)))
  <= count p pending_preamble + count p archived_preamble
     + count p (split_lines content)
  /\ length (split_lines (pending_text (main content)))
     + length (split_lines (archived_text (main content)))
     <= 8 + length (split_lines content).
Proof.
  assert (H : forall q : line -> bool,
    count q (split_lines (pending_text (main content)))
    + count q (split_lines (archived_text (main content)))
    <= count q pending_preamble + count q archived_preamble
       + count q (split_lines content)).
  { intros q. destruct (text_lines content) as [-> ->].
    destruct (final_shape content) as [-> ->].
    set (secs := snd (sections_of (split_lines content))).
    rewrite !count_app.
    pose proof (count_cleaned q true (flat_map to_pending secs)) as Cp.
    pose proof (count_cleaned q true (flat_map to_archived secs)) as Ca.
    pose proof (count_flat_map_le q to_pending to_archived
                  (fun s => fst s :: snd s) secs (section_once q)) as Cs.
    destruct (sections_of_subseq (split_lines content)) as [Hs _]. fold secs in Hs.
    pose proof (count_subseq q _ _ Hs) as Cl. lia. }
  split; [apply H|].
  specialize (H (fun _ => true)). unfold count in H.
  assert (Hall : forall ls : list line, filter (fun _ => true) ls = ls).
  { induction ls as [|x ls IH]; [reflexivity | simpl; rewrite IH; reflexivity]. }
  rewrite !Hall in H.
  change (length pending_preamble) with 4 in H.
  change (length archived_preamble) with 4 in H. lia.
Qed.

Lemma filter_h2_body (f : line * role -> bool) (cur : open_block) (body : list line) :
  Forall body_line body -> filter is_h2 (keep f (tagged cur body)) = [].
Proof.
  intros Hb. pose proof (keep_incl f cur body) as Hincl.
  induction (keep f (tagged cur body)) as [|l ls IH]; [reflexivity|].
  simpl. rewrite Forall_forall in Hb.
  destruct (Hb l (Hincl l (or_introl eq_refl))) as [-> _].
  apply IH. intros x Hx. apply Hincl. right. exact Hx.
Qed.

Lemma headers_of_sections (secs : list (line * list line)) :
  Forall well_formed_section secs ->
  filter is_h2 (flat_map to_pending secs) = map fst (filter section_has_pending secs)
  /\ filter is_h2 (flat_map to_archived secs)
     = map fst (filter (fun s => negb (section_has_pending s)) secs).
Proof.
  intros Hwf. induction Hwf as [|s secs [Hh Hbody] Hwf [IHp IHa]]; [split; reflexivity|].
  cbn [flat_map filter]. rewrite !filter_app, IHp, IHa.
  rewrite to_pending_tagged, to_archived_tagged.
  unfold section_has_pending. rewrite process_section_tagged. cbn [snd].
  destruct (existsb (is_head false) (tagged None (snd s))); cbn [negb filter map app];
    rewrite Hh, (filter_h2_body _ None (snd s) Hbody); split; reflexivity.
Qed.

(** X19: the sections keep their order in each text: the lines of the
    pending text that start with "## " are the headers of the sections
    with [has_pending] true, in the order of the document, and those of
    the archive text are the headers of the other sections, in that
    order. *)
Theorem section_order_kept (content : str) :
  let secs := snd (sections_of (split_lines content)) in
  filter is_h2 (split_lines (pending_text (main content)))
    = map fst (filter section_has_pending secs)
  /\ filter is_h2 (split_lines (archived_text (main content)))
    = map fst (filter (fun s => negb (section_has_pending s)) secs)
  /\ map fst secs = filter is_h2 (split_lines content).
Proof.
  intros secs. destruct (text_lines content) as [-> ->].
  destruct (final_shape content) as [-> ->]. fold secs.
  destruct (sections_of_well_formed (split_lines content)) as [_ Hwf]. fold secs in Hwf.
  destruct (headers_of_sections secs Hwf) as [Hp Ha].
  assert (Hnb : forall l, is_h2 l = true -> is_blank l = false)
    by (intros l Hl; apply header_facts; exact Hl).
  rewrite !filter_app, !(filter_cleaned is_h2 true _ Hnb), Hp, Ha.
  split; [reflexivity|]. split; [reflexivity|]. apply sections_of_headers.
Qed.

(** ** Running the tool on its own output *)

Lemma cleaned_header_led (prev_empty : bool) (ls : list line) :
  header_led ls -> cleaned prev_empty ls = cleaned false ls.
Proof.
  destruct ls as [|h ls]; [reflexivity|]. intros Hh. simpl.
  destruct (header_facts h Hh) as [-> _]. reflexivity.
Qed.

Lemma cleaned_sections (prev_empty : bool) (f : line * list line -> list line)
    (secs : list (line * list line)) :
  Forall (fun s => header_led (f s)) secs ->
  cleaned prev_empty (flat_map f secs)
  = flat_map (fun s => cleaned false (f s)) secs.
Proof.
  intros Hf. revert prev_empty.
  induction Hf as [|s secs Hs Hf IH]; intros pe; [reflexivity|].
  cbn [flat_map]. rewrite cleaned_app.
  rewrite (cleaned_header_led pe (f s) Hs). f_equal. apply IH.
Qed.

Lemma sections_of_body (body rest : list line) :
  Forall body_line body ->
  sections_of (body ++ rest)
  = (body ++ fst (sections_of rest), snd (sections_of rest)).
Proof.
  intros Hb. induction Hb as [|l body [H2 H1] Hb IH].
  - simpl. destruct (sections_of rest); reflexivity.
  - simpl. rewrite IH, H2, H1. reflexivity.
Qed.

(** Sections written one after the other are read back as they are. *)
Lemma sections_of_section_lines (secs : list (line * list line)) :
  Forall well_formed_section secs ->
  sections_of (flat_map section_lines secs) = ([], secs).
Proof.
  intros Hwf. induction Hwf as [|s secs [Hh Hbody] Hwf IH]; [reflexivity|].
  cbn [flat_map section_lines app]. simpl sections_of.
  rewrite (sections_of_body (snd s) _ Hbody), IH, Hh. cbn [fst snd].
  rewrite app_nil_r. destruct s; reflexivity.
Qed.

Lemma sections_after_preamble (pre : list line) (secs : list (line * list line)) :
  forallb (fun l => negb (is_h2 l)) pre = true ->
  Forall well_formed_section secs ->
  snd (sections_of (pre ++ flat_map section_lines secs)) = secs.
Proof.
  intros Hpre Hwf. rewrite sections_of_prefix.
  - rewrite (sections_of_section_lines secs Hwf). reflexivity.
  - intros l Hl. rewrite forallb_forall in Hpre.
    apply negb_true_iff. apply Hpre. exact Hl.
Qed.

Lemma cleaned_body (prev_empty : bool) (body : list line) :
  Forall body_line body -> Forall body_line (cleaned prev_empty body).
Proof.
  intros Hb. rewrite Forall_forall in *. intros l Hl.
  apply Hb. exact (cleaned_incl prev_empty body l Hl).
Qed.

Lemma keep_body (f : line * role -> bool) (cur : open_block) (body : list line) :
  Forall body_line body -> Forall body_line (keep f (tagged cur body)).
Proof.
  intros Hb. rewrite Forall_forall in *. intros l Hl.
  apply Hb. exact (keep_incl f cur body l Hl).
Qed.

Lemma pending_again_well_formed (s : line * list line) :
  well_formed_section s -> well_formed_section (pending_again s).
Proof.
  intros [Hh Hb]. split; [exact Hh|]. unfold pending_again. cbn [snd].
  rewrite process_section_tagged. cbn [fst].
  apply cleaned_body. apply keep_body. exact Hb.
Qed.

Lemma archived_again_well_formed (s : line * list line) :
  well_formed_section s -> well_formed_section (archived_again s).
Proof.
  intros [Hh Hb]. split; [exact Hh|]. apply cleaned_body. exact Hb.
Qed.

(** What is left of a section in the pending text, and in the archive
    text. *)
Lemma cleaned_to_pending_one (s : line * list line) :
  well_formed_section s ->
  cleaned false (to_pending s)
  = if section_has_pending s then section_lines (pending_again s) else [].
Proof.
  intros [Hh _]. unfold to_pending, section_has_pending, pending_again, section_lines.
  destruct (process_section (fst s) (snd s)) as [[pending archived] hp].
  cbn [fst snd]. destruct hp; [|reflexivity].
  simpl cleaned. destruct (header_facts (fst s) Hh) as [-> _]. reflexivity.
Qed.

Lemma cleaned_to_archived_one (s : line * list line) :
  well_formed_section s ->
  cleaned false (to_archived s)
  = if section_has_pending s then [] else section_lines (archived_again s).
Proof.
  intros [Hh _]. rewrite to_archived_tagged.
  unfold section_has_pending. rewrite process_section_tagged. cbn [snd].
  destruct (existsb (is_head false) (tagged None (snd s))) eqn:Hex; [reflexivity|].
  rewrite (archived_whole None (snd s) I Hex). simpl cleaned.
  destruct (header_facts (fst s) Hh) as [-> _]. reflexivity.
Qed.

Lemma cleaned_to_pending (secs : list (line * list line)) :
  Forall well_formed_section secs ->
  flat_map (fun s => cleaned false (to_pending s)) secs
  = flat_map section_lines (map pending_again (filter section_has_pending secs)).
Proof.
  intros Hwf. induction Hwf as [|s secs Hs Hwf IH]; [reflexivity|].
  cbn [flat_map filter]. rewrite IH, (cleaned_to_pending_one s Hs).
  destruct (section_has_pending s); reflexivity.
Qed.

Lemma cleaned_to_archived (secs : list (line * list line)) :
  Forall well_formed_section secs ->
  flat_map (fun s => cleaned false (to_archived s)) secs
  = flat_map section_lines
      (map archived_again (filter (fun s => negb (section_has_pending s)) secs)).
Proof.
  intros Hwf. induction Hwf as [|s secs Hs Hwf IH]; [reflexivity|].
  cbn [flat_map filter]. rewrite IH, (cleaned_to_archived_one s Hs).
  destruct (section_has_pending s); reflexivity.
Qed.

(** A section of the pending text is flushed to the pending buffer again,
    whole. *)
Lemma pending_again_stays (s : line * list line) :
  section_has_pending s = true ->
  to_pending (pending_again s) = section_lines (pending_again s)
  /\ to_archived (pending_again s) = []
  /\ section_has_pending (pending_again s) = true.
Proof.
  unfold section_has_pending. intros Hp.
  rewrite to_pending_tagged, to_archived_tagged.
  unfold section_has_pending. rewrite process_section_tagged.
  unfold pending_again. rewrite process_section_tagged in *. cbn [fst snd] in *.
  assert (Hf : existsb (is_head false)
                 (tagged None (cleaned false (keep in_pending (tagged None (snd s))))) = true).
  { rewrite heads_cleaned, (rescan_pending (snd s) None None eq_refl).
    rewrite (existsb_filter in_pending (is_head false) _ pending_head_is_kept).
    exact Hp. }
  assert (Ht : existsb (is_head true)
                 (tagged None (cleaned false (keep in_pending (tagged None (snd s))))) = false).
  { rewrite heads_cleaned, (rescan_pending (snd s) None None eq_refl).
    apply no_completed_head_kept. }
  rewrite Hf, (pending_whole None _ I Ht). repeat split.
Qed.

(** A section of the archive text is flushed to the archive buffer again,
    whole. *)
Lemma archived_again_stays (s : line * list line) :
  section_has_pending s = false ->
  to_archived (archived_again s) = section_lines (archived_again s)
  /\ to_pending (archived_again s) = []
  /\ section_has_pending (archived_again s) = false.
Proof.
  unfold section_has_pending. intros Hp.
  rewrite to_pending_tagged, to_archived_tagged.
  unfold section_has_pending. rewrite process_section_tagged.
  unfold archived_again. rewrite process_section_tagged in *. cbn [fst snd] in *.
  assert (Hf : existsb (is_head false) (tagged None (cleaned false (snd s))) = false)
    by (rewrite heads_cleaned; exact Hp).
  rewrite Hf, (archived_whole None _ I Hf). repeat split.
Qed.

Lemma flat_map_all (f g : line * list line -> list line)
    (secs : list (line * list line)) :
  Forall (fun s => f s = g s) secs -> flat_map f secs = flat_map g secs.
Proof.
  intros H. induction H as [|s secs Hs H IH]; [reflexivity|].
  simpl. rewrite Hs, IH. reflexivity.
Qed.

Lemma flat_map_none (f : line * list line -> list line)
    (secs : list (line * list line)) :
  Forall (fun s => f s = []) secs -> flat_map f secs = [].
Proof.
  intros H. induction H as [|s secs Hs H IH]; [reflexivity|].
  simpl. rewrite Hs, IH. reflexivity.
Qed.

Lemma filter_all_true (f : line * list line -> bool) (secs : list (line * list line)) :
  Forall (fun s => f s = true) secs -> filter f secs = secs.
Proof.
  intros H. induction H as [|s secs Hs H IH]; [reflexivity|].
  simpl. rewrite Hs, IH. reflexivity.
Qed.

Lemma filter_all_false (f : line * list line -> bool) (secs : list (line * list line)) :
  Forall (fun s => f s = false) secs -> filter f secs = [].
Proof.
  intros H. induction H as [|s secs Hs H IH]; [reflexivity|].
  simpl. rewrite Hs. exact IH.
Qed.

(** The state at the end of a run on the lines [lines]. *)
Lemma assemble_lines_sections (lines : list line) :
  pending_output (assemble_lines lines)
    = pending_preamble ++ flat_map to_pending (snd (sections_of lines))
  /\ archived_output (assemble_lines lines)
    = archived_preamble ++ flat_map to_archived (snd (sections_of lines))
  /\ sections_pending (assemble_lines lines)
    = length (filter section_has_pending (snd (sections_of lines)))
  /\ sections_archived (assemble_lines lines)
    = length (filter (fun s => negb (section_has_pending s)) (snd (sections_of lines))).
Proof.
  unfold assemble_lines.
  destruct (main_loop_sections lines main_init) as [Hp Ha].
  destruct (main_loop_counts lines main_init) as [Cp Ca].
  rewrite Hp, Ha, Cp, Ca. repeat split.
Qed.

(** A run on a text made of a preamble and of sections that all go to
    the same side. *)
Lemma assemble_lines_one_side (pre : list line) (kept : list (line * list line)) :
  forallb (fun l => negb (is_h2 l)) pre = true ->
  Forall well_formed_section kept ->
  (Forall (fun s => to_pending s = section_lines s /\ to_archived s = []
                    /\ section_has_pending s = true) kept ->
   pending_output (assemble_lines (pre ++ flat_map section_lines kept))
     = pending_preamble ++ flat_map section_lines kept
   /\ archived_output (assemble_lines (pre ++ flat_map section_lines kept))
     = archived_preamble
   /\ sections_pending (assemble_lines (pre ++ flat_map section_lines kept))
     = length kept
   /\ sections_archived (assemble_lines (pre ++ flat_map section_lines kept)) = 0)
  /\ (Forall (fun s => to_archived s = section_lines s /\ to_pending s = []
                       /\ section_has_pending s = false) kept ->
   archived_output (assemble_lines (pre ++ flat_map section_lines kept))
     = archived_preamble ++ flat_map section_lines kept
   /\ pending_output (assemble_lines (pre ++ flat_map section_lines kept))
     = pending_preamble
   /\ sections_archived (assemble_lines (pre ++ flat_map section_lines kept))
     = length kept
   /\ sections_pending (assemble_lines (pre ++ flat_map section_lines kept)) = 0).
Proof.
  intros Hpre Hwf.
  destruct (assemble_lines_sections (pre ++ flat_map section_lines kept))
    as (Hp & Ha & Cp & Ca).
  rewrite (sections_after_preamble pre kept Hpre Hwf) in Hp, Ha, Cp, Ca.
  rewrite Hp, Ha, Cp, Ca. clear Hp Ha Cp Ca.
  split; intros Hall.
  - rewrite (flat_map_all to_pending section_lines kept),
      (flat_map_none to_archived kept), (filter_all_true section_has_pending kept),
      (filter_all_false (fun s => negb (section_has_pending s)) kept), app_nil_r.
    + repeat split.
    + eapply Forall_impl; [|exact Hall]. intros s (_ & _ & ->). reflexivity.
    + eapply Forall_impl; [|exact Hall]. intros s (_ & _ & H). exact H.
    + eapply Forall_impl; [|exact Hall]. intros s (_ & H & _). exact H.
    + eapply Forall_impl; [|exact Hall]. intros s (H & _ & _). exact H.
  - rewrite (flat_map_all to_archived section_lines kept),
      (flat_map_none to_pending kept), (filter_all_false section_has_pending kept),
      (filter_all_true (fun s => negb (section_has_pending s)) kept), app_nil_r.
    + repeat split.
    + eapply Forall_impl; [|exact Hall]. intros s (_ & _ & ->). reflexivity.
    + eapply Forall_impl; [|exact Hall]. intros s (_ & _ & H). exact H.
    + eapply Forall_impl; [|exact Hall]. intros s (_ & H & _). exact H.
    + eapply Forall_impl; [|exact Hall]. intros s (H & _ & _). exact H.
Qed.

Lemma Forall_map_filter (f : line * list line -> line * list line)
    (p : line * list line -> bool) (Q : line * list line -> Prop)
    (secs : list (line * list line)) :
  (forall s, In s secs -> p s = true -> Q (f s)) ->
  Forall Q (map f (filter p secs)).
Proof.
  intros H. apply Forall_forall. intros x Hx. apply in_map_iff in Hx.
  destruct Hx as [s [<- Hs]]. apply filter_In in Hs. destruct Hs as [Hin Hp].
  exact (H s Hin Hp).
Qed.

(** The lines of the pending text are its preamble and the sections with
    [has_pending] true, each as [pending_again] gives it; the same for
    the archive text. *)
Lemma final_sections (content : str) :
  let secs := snd (sections_of (split_lines content)) in
  pending_final content
    = pending_preamble
      ++ flat_map section_lines (map pending_again (filter section_has_pending secs))
  /\ archived_final content
    = archived_preamble
      ++ flat_map section_lines
           (map archived_again (filter (fun s => negb (section_has_pending s)) secs)).
Proof.
  intros secs.
  destruct (sections_of_well_formed (split_lines content)) as [_ Hwf]. fold secs in Hwf.
  destruct (final_shape content) as [-> ->]. fold secs.
  rewrite (cleaned_sections true to_pending secs),
    (cleaned_sections true to_archived secs).
  - rewrite (cleaned_to_pending secs Hwf), (cleaned_to_archived secs Hwf).
    split; reflexivity.
  - eapply Forall_impl; [|exact Hwf]. apply to_archived_header_led.
  - eapply Forall_impl; [|exact Hwf]. apply to_pending_header_led.
Qed.

(** X20: a second run on the pending text changes nothing in it and
    archives nothing: the pending text comes out as it went in, with the
    same report, and the archive text is its preamble alone. *)
Theorem rerun_on_pending_text (content : str) :
  let text := pending_text (main content) in
  pending_text (main text) = text
  /\ archived_text (main text) = join_lines archived_preamble
  /\ pending_report (main text) = pending_report (main content)
  /\ archived_report (main text) = (0, 4).
Proof.
  intros text.
  set (secs := snd (sections_of (split_lines content))).
  set (kept := map pending_again (filter section_has_pending secs)).
  destruct (sections_of_well_formed (split_lines content)) as [_ Hwf]. fold secs in Hwf.
  rewrite Forall_forall in Hwf.
  destruct (final_sections content) as [Fp _]. fold secs kept in Fp.
  destruct (text_lines content) as [Tp _]. fold text in Tp.
  assert (Hkwf : Forall well_formed_section kept).
  { apply Forall_map_filter. intros s Hs _.
    apply pending_again_well_formed. exact (Hwf s Hs). }
  assert (Hstay : Forall (fun s => to_pending s = section_lines s /\ to_archived s = []
                                   /\ section_has_pending s = true) kept).
  { apply Forall_map_filter. intros s _ Hp. apply pending_again_stays. exact Hp. }
  destruct (assemble_lines_one_side pending_preamble kept eq_refl Hkwf) as [Hside _].
  destruct (Hside Hstay) as (Hp & Ha & Cp & Ca). clear Hside.
  rewrite <- Fp, <- Tp in Hp, Ha, Cp, Ca.
  change (assemble_lines (split_lines text)) with (assemble text) in Hp, Ha, Cp, Ca.
  assert (Ep : pending_final text = pending_final content).
  { unfold pending_final at 1. rewrite Hp, Tp. unfold pending_final.
    rewrite !clean_empty_lines_cleaned. apply cleaned_cleaned. intros H. exact H. }
  assert (Ea : archived_final text = archived_preamble).
  { unfold archived_final. rewrite Ha. vm_compute. reflexivity. }
  destruct (assemble_lines_sections (split_lines content)) as (_ & _ & Rp & _).
  change (assemble_lines (split_lines content)) with (assemble content) in Rp.
  fold secs in Rp.
  cbn [main pending_text archived_text pending_report archived_report].
  rewrite Ep, Ea, Cp, Ca, Rp.
  split; [reflexivity|]. split; [reflexivity|]. split; [|reflexivity].
  unfold kept. rewrite length_map. reflexivity.
Qed.

(** X21: a run on the archive text gives the archive text back, with the
    same report, and a pending text that is its preamble alone: no section
    of the archive has a pending block. *)
Theorem rerun_on_archived_text (content : str) :
  let text := archived_text (main content) in
  archived_text (main text) = text
  /\ pending_text (main text) = join_lines pending_preamble
  /\ archived_report (main text) = archived_report (main content)
  /\ pending_report (main text) = (0, 4).
Proof.
  intros text.
  set (secs := snd (sections_of (split_lines content))).
  set (kept := map archived_again
                 (filter (fun s => negb (section_has_pending s)) secs)).
  destruct (sections_of_well_formed (split_lines content)) as [_ Hwf]. fold secs in Hwf.
  rewrite Forall_forall in Hwf.
  destruct (final_sections content) as [_ Fa]. fold secs kept in Fa.
  destruct (text_lines content) as [_ Ta]. fold text in Ta.
  assert (Hkwf : Forall well_formed_section kept).
  { apply Forall_map_filter. intros s Hs _.
    apply archived_again_well_formed. exact (Hwf s Hs). }
  assert (Hstay : Forall (fun s => to_archived s = section_lines s /\ to_pending s = []
                                   /\ section_has_pending s = false) kept).
  { apply Forall_map_filter. intros s _ Hp. apply archived_again_stays.
    apply negb_true_iff. exact Hp. }
  destruct (assemble_lines_one_side archived_preamble kept eq_refl Hkwf) as [_ Hside].
  destruct (Hside Hstay) as (Ha & Hp & Ca & Cp). clear Hside.
  rewrite <- Fa, <- Ta in Hp, Ha, Cp, Ca.
  change (assemble_lines (split_lines text)) with (assemble text) in Hp, Ha, Cp, Ca.
  assert (Ea : archived_final text = archived_final content).
  { unfold archived_final at 1. rewrite Ha, Ta. unfold archived_final.
    rewrite !clean_empty_lines_cleaned. apply cleaned_cleaned. intros H. exact H. }
  assert (Ep : pending_final text = pending_preamble).
  { unfold pending_final. rewrite Hp. vm_compute. reflexivity. }
  destruct (assemble_lines_sections (split_lines content)) as (_ & _ & _ & Ra).
  change (assemble_lines (split_lines content)) with (assemble content) in Ra.
  fold secs in Ra.
  cbn [main pending_text archived_text pending_report archived_report].
  rewrite Ep, Ea, Cp, Ca, Ra.
  split; [reflexivity|]. split; [reflexivity|]. split; [|reflexivity].
  unfold kept. rewrite length_map. reflexivity.
Qed.

(** ** Sections whose tasks are all completed *)

(** X22: a section of the document without a "- [ ]" marker line has
    [has_pending] false: its header and its whole body, completed tasks
    with their details and free text, are appended to the archive buffer
    and nothing of it to the pending buffer. *)
Theorem completed_section_archived (content : str)
    (secs1 secs2 : list (line * list line)) (h : line) (body : list line) :
  snd (sections_of (split_lines content)) = secs1 ++ (h, body) :: secs2 ->
  (forall l, In l body -> is_task_line l <> (true, false)) ->
  snd (process_section h body) = false
  /\ snd (fst (process_section h body)) = body
  /\ archived_output (assemble content) =
       archived_preamble ++ flat_map to_archived secs1 ++ (h :: body)
       ++ flat_map to_archived secs2
  /\ pending_output (assemble content) =
       pending_preamble ++ flat_map to_pending secs1
       ++ flat_map to_pending secs2.
Proof.
  intros E Hnone.
  assert (Hex : existsb (is_head false) (tagged None body) = false).
  { apply no_pending_head. intros k Hk Hp. exfalso.
    apply (Hnone (get body k)); [|exact Hp]. apply nth_In. exact Hk. }
  destruct (archived_section h body Hex) as (Hps & Htp & Hta).
  destruct (section_in_document content secs1 secs2 _ E) as [Hp Ha].
  rewrite Htp in Hp. rewrite Hta in Ha. simpl app in Hp.
  rewrite Hps. simpl.
  split; [reflexivity|]. split; [reflexivity|]. split; [exact Ha | exact Hp].
Qed.

(** The theorem on the document of the scenario. *)
Lemma completed_section_archived_witness :
  snd (sections_of (split_lines completed_doc)) =
    [] ++ (lit "## B", [lit "- [x] done2"; lit "  note"]) :: []
  /\ (forall l, In l [lit "- [x] done2"; lit "  note"] ->
        is_task_line l <> (true, false))
  /\ archived_output (assemble completed_doc) =
       archived_preamble ++ [] ++ (lit "## B" :: [lit "- [x] done2"; lit "  note"]) ++ []
  /\ pending_output (assemble completed_doc) = pending_preamble ++ [] ++ [].
Proof.
  assert (H1 : snd (sections_of (split_lines completed_doc)) =
               [] ++ (lit "## B", [lit "- [x] done2"; lit "  note"]) :: [])
    by (vm_compute; reflexivity).
  assert (H2 : forall l, In l [lit "- [x] done2"; lit "  note"] ->
               is_task_line l <> (true, false))
    by (intros l [<-|[<-|[]]]; discriminate).
  split; [exact H1|]. split; [exact H2|].
  destruct (completed_section_archived completed_doc [] []
              (lit "## B") [lit "- [x] done2"; lit "  note"] H1 H2)
    as (_ & _ & Ha & Hp).
  split; [exact Ha | exact Hp].
Defined.

(** ** The state of the loop *)

Lemma main_step_header (st : main_state) (l : line) :
  current_header (main_step st l) = if is_h2 l then l else current_header st.
Proof.
  unfold main_step. fold (is_h2 l). fold (is_h1 l).
  destruct (is_h2 l); [reflexivity|]. destruct (is_h1 l); reflexivity.
Qed.

Lemma main_step_lines (st : main_state) (l : line) :
  Forall body_line (current_lines st) ->
  Forall body_line (current_lines (main_step st l)).
Proof.
  intros H. unfold main_step. fold (is_h2 l). fold (is_h1 l).
  destruct (is_h2 l) eqn:H2; [constructor|].
  destruct (is_h1 l) eqn:H1; [exact H|]. simpl.
  apply Forall_app. split; [exact H|]. constructor; [split; assumption | constructor].
Qed.

Lemma last_default (x : line) (xs : list line) (d d' : line) :
  last (x :: xs) d = last (x :: xs) d'.
Proof.
  revert x. induction xs as [|y xs IH]; intros x; [reflexivity|].
  change (last (x :: y :: xs) d) with (last (y :: xs) d).
  change (last (x :: y :: xs) d') with (last (y :: xs) d'). apply IH.
Qed.

Lemma loop_header (lines : list line) (st : main_state) :
  current_header (fold_left main_step lines st)
  = last (filter is_h2 lines) (current_header st)
  /\ (Forall body_line (current_lines st) ->
      Forall body_line (current_lines (fold_left main_step lines st))).
Proof.
  revert st. induction lines as [|l lines IH]; intros st; [split; [reflexivity | auto]|].
  simpl fold_left. destruct (IH (main_step st l)) as [IHh IHl].
  split.
  - rewrite IHh, main_step_header. simpl filter.
    destruct (is_h2 l); [|reflexivity].
    destruct (filter is_h2 lines) as [|x xs]; [reflexivity|].
    change (last (l :: x :: xs) (current_header st))
      with (last (x :: xs) (current_header st)).
    apply last_default.
  - intros H. apply IHl. apply main_step_lines. exact H.
Qed.

(** X23: while the loop runs, [current_header] is the last line read that
    starts with "## ", and empty as long as there was none; so a section
    is open exactly from the first header on.  No line of [current_lines]
    starts with "## " or with "# ". *)
Theorem loop_state (lines : list line) :
  let st := fold_left main_step lines main_init in
  current_header st = last (filter is_h2 lines) []
  /\ (is_empty_str (current_header st) = true <-> filter is_h2 lines = [])
  /\ Forall body_line (current_lines st).
Proof.
  intros st. destruct (loop_header lines main_init) as [Hh Hl]. fold st in Hh, Hl.
  split; [exact Hh|]. split; [|apply Hl; constructor].
  rewrite Hh. simpl current_header. split.
  - intros He. destruct (filter is_h2 lines) as [|x xs] eqn:Ef; [reflexivity|].
    exfalso.
    assert (Hin : In (last (x :: xs) []) (filter is_h2 lines)).
    { rewrite Ef. destruct (exists_last (l:=x :: xs)) as (xs' & y & Ey); [discriminate|].
      rewrite Ey, last_last. apply in_or_app. right. left. reflexivity. }
    apply filter_In in Hin. destruct Hin as [_ H2].
    rewrite (is_h2_nonempty _ H2) in He. discriminate.
  - intros ->. reflexivity.
Qed.

(** ** What a run keeps, line by line *)



(** ** Task markers: where they go *)











(** ** Header texts in the two buffers *)

(** The header text "## Done" of two sections is in both buffers. *)
Lemma same_header_in_both_buffers : ~ header_in_one_buffer same_header_doc.
Proof.
  intros H. apply (H (lit "## Done")).
  - vm_compute. left. reflexivity.
  - reflexivity.
  - split; vm_compute.
    + do 4 right. left. reflexivity.
    + do 4 right. left. reflexivity.
Qed.

Lemma buffer_headers (content : str) :
  let secs := snd (sections_of (split_lines content)) in
  filter is_h2 (pending_output (assemble content))
    = map fst (filter section_has_pending secs)
  /\ filter is_h2 (archived_output (assemble content))
    = map fst (filter (fun s => negb (section_has_pending s)) secs).
Proof.
  intros secs. destruct (assemble_sections content) as [-> ->]. fold secs.
  destruct (sections_of_well_formed (split_lines content)) as [_ Hwf]. fold secs in Hwf.
  destruct (headers_of_sections secs Hwf) as [Hp Ha].
  rewrite !filter_app, Hp, Ha. split; reflexivity.
Qed.

Lemma in_occurrences (l : line) (ls : list line) :
  In l ls <-> 0 < occurrences l ls.
Proof. unfold occurrences. apply (count_occ_In line_eq_dec). Qed.

Lemma header_occurrences (content : str) (h : line) :
  is_h2 h = true ->
  occurrences h (pending_output (assemble content))
  + occurrences h (archived_output (assemble content))
  = occurrences h (split_lines content).
Proof.
  intros Hh. destruct (assemble_sections content) as [-> ->].
  rewrite !occurrences_app.
  rewrite (not_header_none h pending_preamble Hh eq_refl).
  rewrite (not_header_none h archived_preamble Hh eq_refl).
  simpl.
  rewrite (header_in_sections h _ Hh
             (proj2 (sections_of_well_formed (split_lines content)))).
  rewrite sections_of_headers. apply occurrences_filter. exact Hh.
Qed.

(** C5, as the code has it: every line of the document that starts with
    "## " is the header of one section, and each section is flushed to
    one buffer: the lines of the pending buffer that start with "## " are
    the headers of the sections with [has_pending] true, in order, and
    those of the archive buffer are the headers of the other sections.
    So a header text occurs in the two buffers together as often as in
    the document; when it occurs once there, it is in one buffer and not
    in the other, the pending one exactly when [has_pending] is true.
    (The same header text on two sections can be in both buffers.) *)
Theorem header_routed_once (content : str) :
  let lines := split_lines content in
  let secs := snd (sections_of lines) in
  let pending := pending_output (assemble content) in
  let archived := archived_output (assemble content) in
  map fst secs = filter is_h2 lines
  /\ filter is_h2 pending = map fst (filter section_has_pending secs)
  /\ filter is_h2 archived
     = map fst (filter (fun s => negb (section_has_pending s)) secs)
  /\ (forall h, is_h2 h = true ->
        occurrences h pending + occurrences h archived = occurrences h lines)
  /\ (forall s, In s secs -> occurrences (fst s) lines = 1 ->
        if section_has_pending s
        then In (fst s) pending /\ ~ In (fst s) archived
        else In (fst s) archived /\ ~ In (fst s) pending).
Proof.
  intros lines secs pending archived.
  destruct (buffer_headers content) as [Bp Ba]. fold lines secs pending archived in Bp, Ba.
  split; [apply sections_of_headers|]. split; [exact Bp|]. split; [exact Ba|].
  split; [intros h Hh; apply header_occurrences; exact Hh|].
  intros s Hs Hone.
  destruct (sections_of_well_formed lines) as [_ Hwf]. fold secs in Hwf.
  rewrite Forall_forall in Hwf. destruct (Hwf s Hs) as [Hh _].
  pose proof (header_occurrences content (fst s) Hh) as Hsum.
  fold lines pending archived in Hsum. rewrite Hone in Hsum.
  destruct (section_has_pending s) eqn:Hp.
  - assert (Hin : In (fst s) pending).
    { assert (H : In (fst s) (filter is_h2 pending)).
      { rewrite Bp. apply in_map. apply filter_In. split; assumption. }
      apply filter_In in H. apply H. }
    split; [exact Hin|]. rewrite !in_occurrences in *. lia.
  - assert (Hin : In (fst s) archived).
    { assert (H : In (fst s) (filter is_h2 archived)).
      { rewrite Ba. apply in_map. apply filter_In. split; [exact Hs|].
        rewrite Hp. reflexivity. }
      apply filter_In in H. apply H. }
    split; [exact Hin|]. rewrite !in_occurrences in *. lia.
Qed.

(** ** Sections without tasks *)




